(** * The MINIMALDATA activation scenario (qa/rpc-tests/minimaldata-activation.py)

    A shallow embedding of the functional test that drives a node across the
    November 2019 upgrade: the height registry [block_heights], the block
    builder [build_block], the fixture factory [create_fund_and_spend_tx] and
    the scripted scenario [run_test], followed by the properties of the
    scenario that the design notes rely on. *)

From stdpp Require Import gmap strings list sorting pretty.
From Stdlib Require Import ZArith Lia.

Local Open Scope Z_scope.

(** ** Constants of the script *)

(** the upgrade activation time, which the script sets far into the future *)
Definition NOV2019_START_TIME : Z := 2000000000.

Definition MINIMALPUSH_ERROR : string :=
  "non-mandatory-script-verify-flag (Data push larger than necessary)"%string.

(** Blocks with invalid scripts give this error. *)
Definition BADSIGNATURE_ERROR : string := "bad-blk-signatures"%string.

(** ** Data: scripts, transactions, blocks *)

(** A script is its serialisation, one [Z] in [0, 255] per byte. *)
Definition Script : Type := list Z.

Record COutPoint : Type := mkOutPoint { op_hash : Z; op_n : Z }.
Record CTxIn : Type := mkTxIn { prevout : COutPoint; scriptSig : Script }.
Record CTxOut : Type := mkTxOut { nValue : Z; scriptPubKey : Script }.
Record CTransaction : Type := mkTx { vin : list CTxIn; vout : list CTxOut }.
Record CBlock : Type := mkBlock {
  hashPrevBlock : Z;
  hashMerkleRoot : Z;
  nTime : Z;
  nNonce : Z;
  vtx : list CTransaction
}.

#[global] Instance COutPoint_eq_dec : EqDecision COutPoint.
Proof. solve_decision. Defined.
#[global] Instance CTxIn_eq_dec : EqDecision CTxIn.
Proof. solve_decision. Defined.
#[global] Instance CTxOut_eq_dec : EqDecision CTxOut.
Proof. solve_decision. Defined.
#[global] Instance CTransaction_eq_dec : EqDecision CTransaction.
Proof. solve_decision. Defined.
#[global] Instance CBlock_eq_dec : EqDecision CBlock.
Proof. solve_decision. Defined.

(** The empty transaction [CTransaction()]. *)
Definition CTransaction_new : CTransaction := mkTx [] [].

(** ** What the script imports from test_framework

    blocktools, txtools, script and the hashing of nodemessages are not part
    of the script; the scenario is stated over any implementation of them.
    The cached [sha256] attribute of a transaction or block is the hash of
    its current content, so [calc_sha256] and [rehash] are the functions
    [tx_sha256] and [block_sha256]. *)
Record Framework : Type := mkFramework {
  OP_ADD : Z;
  OP_TRUE : Z;
  tx_sha256 : CTransaction -> Z;
  block_sha256 : CBlock -> Z;
  calc_merkle_root : list CTransaction -> Z;
  solve_nonce : CBlock -> Z;
  create_coinbase : Z -> Script -> CTransaction;
  create_transaction : CTransaction -> Z -> Script -> Z -> Script -> CTransaction;
  pad_tx : CTransaction -> CTransaction;
  make_conform_to_ctor : list CTransaction -> list CTransaction
}.

(** The two facts about the imports that the fixture properties need:
    padding only appends outputs, and the canonical ordering of a block's
    transactions is a reordering. *)
Record FrameworkLaws (fw : Framework) : Prop := mkFrameworkLaws {
  pad_tx_vin : forall tx, vin (pad_tx fw tx) = vin tx;
  pad_tx_vout : forall tx, exists extra, vout (pad_tx fw tx) = vout tx ++ extra;
  ctor_perm : forall txs, make_conform_to_ctor fw txs ≡ₚ txs
}.

(** [CScript([op])] for a list of plain opcodes: one byte each. *)
Definition CScript_ops (ops : list Z) : Script := ops.
(** [CScript(b'...')] for raw bytes. *)
Definition CScript_bytes (bs : list Z) : Script := bs.

(** Modelled from the spec: [create_block] of blocktools is missing; a block
    records its parent identity, timestamp, ordered transaction list with the
    coinbase first, and merkle root (data model, Block). *)
Definition create_block (fw : Framework) (hashprev : Z) (coinbase : CTransaction)
    (ntime : Z) : CBlock :=
  {| hashPrevBlock := hashprev;
     hashMerkleRoot := calc_merkle_root fw [coinbase];
     nTime := ntime;
     nNonce := 0;
     vtx := [coinbase] |}.

(** ** The node under test, as the script sees it *)

(** Modelled from the spec: the outcome of a submission (data model,
    SubmissionResult). *)
Inductive SubmissionResult : Type :=
  | Accepted
  | RejectedNoBan (reasonText : string)
  | RejectedWithBan (reasonText : string).

#[global] Instance SubmissionResult_eq_dec : EqDecision SubmissionResult.
Proof. solve_decision. Defined.

(** Modelled from the spec: the external interfaces of the node (direct
    channel, peer channel, clock control, introspection).  [NS] is the node's
    own state; the direct channel answers with a transaction id or with a
    numeric code and a message; [handshake] tells whether the peer connection
    is up after the version handshake. *)
Record Node (NS : Type) : Type := mkNode {
  handshake : NS -> bool * NS;
  generate : Z -> NS -> NS;
  getblockcount : NS -> Z;
  getblockhash : Z -> NS -> Z;
  getblock : Z -> NS -> CBlock;
  p2p_blocks : list CBlock -> NS -> SubmissionResult * NS;
  p2p_txs : list CTransaction -> NS -> SubmissionResult * NS;
  sendrawtransaction : CTransaction -> NS -> (Z + Z * string) * NS;
  getrawmempool : NS -> list Z;
  setmocktime : Z -> NS -> NS;
  mediantime : NS -> Z
}.
Arguments handshake {NS}.
Arguments generate {NS}.
Arguments getblockcount {NS}.
Arguments getblockhash {NS}.
Arguments getblock {NS}.
Arguments p2p_blocks {NS}.
Arguments p2p_txs {NS}.
Arguments sendrawtransaction {NS}.
Arguments getrawmempool {NS}.
Arguments setmocktime {NS}.
Arguments mediantime {NS}.

(** ** Interactions, exceptions and the state of a run *)

(** What a run does to the outside, in order: the [logging.info] lines and
    the calls on the node with what the node answered. *)
Inductive Event : Type :=
  | EvLog (msg : string)
  | EvGenerate (n : Z)
  | EvBootstrapP2P
  | EvSendBlocks (blocks : list CBlock) (verdict : SubmissionResult)
  | EvSendTxs (txs : list CTransaction) (verdict : SubmissionResult)
  | EvSendRawTransaction (tx : CTransaction) (answer : Z + Z * string)
  | EvGetRawMempool (txids : list Z)
  | EvSetMockTime (t : Z)
  | EvMedianTime (t : Z).

#[global] Instance Event_eq_dec : EqDecision Event.
Proof. solve_decision. Defined.

Inductive PyExc : Type := KeyError | IndexError | AssertionError | TypeError.

#[global] Instance PyExc_eq_dec : EqDecision PyExc.
Proof. solve_decision. Defined.

(** How a piece of the script ends: it falls through with a value, executes
    [return], or raises. *)
Inductive Outcome (A : Type) : Type :=
  | Normal (a : A)
  | Returned
  | Raised (e : PyExc).
Arguments Normal {A}.
Arguments Returned {A}.
Arguments Raised {A}.

(** The mutable objects of a run: the [block_heights] dict of the test
    object, the two lists the fixture factory closes over, the node, and the
    interactions so far (newest first). *)
Record TestState (NS : Type) : Type := mkState {
  block_heights : gmap Z Z;
  spendable_outputs : list CTransaction;
  fundings : list CTransaction;
  node_st : NS;
  trace : list Event
}.
Arguments mkState {NS}.
Arguments block_heights {NS}.
Arguments spendable_outputs {NS}.
Arguments fundings {NS}.
Arguments node_st {NS}.
Arguments trace {NS}.

Definition set_block_heights {NS} (m : gmap Z Z) (st : TestState NS) : TestState NS :=
  mkState m (spendable_outputs st) (fundings st) (node_st st) (trace st).
Definition set_spendable_outputs {NS} (l : list CTransaction) (st : TestState NS) : TestState NS :=
  mkState (block_heights st) l (fundings st) (node_st st) (trace st).
Definition set_fundings {NS} (l : list CTransaction) (st : TestState NS) : TestState NS :=
  mkState (block_heights st) (spendable_outputs st) l (node_st st) (trace st).
Definition set_node_st {NS} (n : NS) (st : TestState NS) : TestState NS :=
  mkState (block_heights st) (spendable_outputs st) (fundings st) n (trace st).
Definition emit {NS} (e : Event) (st : TestState NS) : TestState NS :=
  mkState (block_heights st) (spendable_outputs st) (fundings st) (node_st st)
          (e :: trace st).

(** [set_test_params]: an empty height registry; no run has started. *)
Definition initial_state {NS} (n : NS) : TestState NS := mkState ∅ [] [] n [].

(** ** The monad of the script: state, exceptions, early return *)

Definition M (NS A : Type) : Type := TestState NS -> Outcome A * TestState NS.

Definition ret {NS A} (a : A) : M NS A := fun st => (Normal a, st).
Definition raise {NS A} (e : PyExc) : M NS A := fun st => (Raised e, st).
Definition return_ {NS} : M NS unit := fun st => (Returned, st).
Definition bind {NS A B} (m : M NS A) (f : A -> M NS B) : M NS B :=
  fun st =>
    match m st with
    | (Normal a, st') => f a st'
    | (Returned, st') => (Returned, st')
    | (Raised e, st') => (Raised e, st')
    end.

Declare Scope py_scope.
Delimit Scope py_scope with py.
Notation "x <- m ;; k" := (bind m (fun x => k))
  (at level 100, m at next level, right associativity) : py_scope.
Notation "m ;; k" := (bind m (fun _ => k))
  (at level 100, right associativity) : py_scope.
Local Open Scope py_scope.

(** A [for] loop that threads its variables through the body. *)
Fixpoint for_each {NS A B} (body : B -> A -> M NS B) (l : list A) (b : B) : M NS B :=
  match l with
  | [] => ret b
  | a :: l' => b' <- body b a;; for_each body l' b'
  end.

(** A list comprehension whose element expression can raise. *)
Fixpoint comprehension {NS A B} (f : A -> M NS B) (l : list A) : M NS (list B) :=
  match l with
  | [] => ret []
  | a :: l' => b <- f a;; bs <- comprehension f l';; ret (b :: bs)
  end.

(** [range(a, b)] *)
Definition py_range (a b : Z) : list Z := seqZ a (b - a).

(** [l[0]] *)
Definition first_elem {NS A} (l : list A) : M NS A :=
  match l with
  | [] => raise IndexError
  | a :: _ => ret a
  end.

(** ** The script *)

(** A text value of the script: a [str], or a [bytes] object.  A [str] is
    held as its UTF-8 encoding, a [bytes] object as its bytes. *)
Inductive PyText : Type :=
  | PyStr (s : string)
  | PyBytes (b : string).

(** The two ways in which [reject_reason.decode()] fails. *)
Inductive DecodeExc : Type := AttributeError | UnicodeDecodeError.

(** The byte [a] lies between [lo] and [hi]. *)
Definition byte_in (lo hi : N) (a : Ascii.ascii) : bool :=
  ((lo <=? Ascii.N_of_ascii a)%N && (Ascii.N_of_ascii a <=? hi)%N)%bool.

(** Well-formed UTF-8, as the strict decoder of [bytes.decode()] accepts it:
    one byte 00..7F; two bytes C2..DF 80..BF; three bytes E0..EF 80..BF
    80..BF, the second from A0 after E0 and up to 9F after ED (no overlong
    form, no surrogate); four bytes F0..F4 80..BF 80..BF 80..BF, the second
    from 90 after F0 and up to 8F after F4 (no overlong form, nothing above
    U+10FFFF). *)
Fixpoint utf8_valid (b : string) : bool :=
  match b with
  | EmptyString => true
  | String a1 b1 =>
      if byte_in 0 127 a1 then utf8_valid b1 else
      match b1 with
      | EmptyString => false
      | String a2 b2 =>
          if byte_in 194 223 a1 then byte_in 128 191 a2 && utf8_valid b2 else
          match b2 with
          | EmptyString => false
          | String a3 b3 =>
              if byte_in 224 239 a1 then
                byte_in (if byte_in 224 224 a1 then 160 else 128)
                        (if byte_in 237 237 a1 then 159 else 191) a2
                && byte_in 128 191 a3 && utf8_valid b3
              else
              match b3 with
              | EmptyString => false
              | String a4 b4 =>
                  byte_in 240 244 a1
                  && byte_in (if byte_in 240 240 a1 then 144 else 128)
                             (if byte_in 244 244 a1 then 143 else 191) a2
                  && byte_in 128 191 a3 && byte_in 128 191 a4 && utf8_valid b4
              end
          end
      end
  end.

(** [reject_reason.decode()]: a [str] has no method [decode]; a [bytes]
    object decodes as UTF-8 or raises. *)
Definition decode (t : PyText) : DecodeExc + string :=
  match t with
  | PyStr _ => inl AttributeError
  | PyBytes b => if utf8_valid b then inr b else inl UnicodeDecodeError
  end.

(** [rpc_error], with the keyword-only parameters [reject_code] and
    [reject_reason]: RPC indicates rejected items in a slightly different way
    than p2p. *)
Definition rpc_error (reject_code : Z) (reject_reason : PyText)
    : DecodeExc + string :=
  match decode reject_reason with
  | inl e => inl e
  | inr reason => inr (reason +:+ " (code " +:+ pretty reject_code +:+ ")")%string
  end.

(** [rpc_error] takes keyword arguments only: a call that passes its argument
    by position raises [TypeError] before the body runs. *)
Definition rpc_error_by_position {NS} (arg : string) : M NS string :=
  raise TypeError.

Section Scenario.
Context {NS : Type} (fw : Framework) (node : Node NS).

Definition sha256 (b : CBlock) : Z := block_sha256 fw b.

Definition log_info (msg : string) : M NS unit :=
  fun st => (Normal tt, emit (EvLog msg) st).

(** *** Calls on the node *)

Definition node_generate (n : Z) : M NS unit :=
  fun st =>
    (Normal tt, emit (EvGenerate n) (set_node_st (generate node n (node_st st)) st)).

Definition node_setmocktime (t : Z) : M NS unit :=
  fun st =>
    (Normal tt, emit (EvSetMockTime t) (set_node_st (setmocktime node t (node_st st)) st)).

Definition node_getrawmempool : M NS (list Z) :=
  fun st =>
    let l := getrawmempool node (node_st st) in
    (Normal l, emit (EvGetRawMempool l) st).

(** [node.getblockchaininfo()['mediantime']] *)
Definition node_mediantime : M NS Z :=
  fun st =>
    let t := mediantime node (node_st st) in
    (Normal t, emit (EvMedianTime t) st).

(** Add a P2P connection to the node: connect, wait for the version
    handshake, and assert that the connection is in state connected. *)
Definition bootstrap_p2p : M NS unit :=
  fun st =>
    let '(connected, ns) := handshake node (node_st st) in
    let st' := emit EvBootstrapP2P (set_node_st ns st) in
    if connected then (Normal tt, st') else (Raised AssertionError, st').

(** *** Assertions of test_framework *)

(** An expected reason, when one is given, is the reason observed. *)
Definition reason_agrees (expected : option string) (observed : string) : bool :=
  match expected with
  | None => true
  | Some r => bool_decide (r = observed)
  end.

(** Modelled from the spec: the capability contract of a submit channel,
    [submit(items, expectSuccess, expectBan, expectedReason)]: the scenario
    fails if the class or the reason text of the observed outcome disagrees
    with the expectation; a ban is the peer connection closed by the node. *)
Definition verdict_agrees (success expect_ban : bool) (reject_reason : option string)
    (v : SubmissionResult) : bool :=
  match v with
  | Accepted => success
  | RejectedNoBan r =>
      negb success && negb expect_ban && reason_agrees reject_reason r
  | RejectedWithBan r =>
      negb success && expect_ban && reason_agrees reject_reason r
  end.

(** Modelled from the spec: the peer variant of the submit channel, for
    blocks ([send_blocks_and_test] of mininode is missing). *)
Definition send_blocks_and_test (blocks : list CBlock)
    (success expect_ban : bool) (reject_reason : option string) : M NS unit :=
  fun st =>
    let '(v, ns) := p2p_blocks node blocks (node_st st) in
    let st' := emit (EvSendBlocks blocks v) (set_node_st ns st) in
    if verdict_agrees success expect_ban reject_reason v
    then (Normal tt, st') else (Raised AssertionError, st').

(** Modelled from the spec: the peer variant of the submit channel, for
    transactions ([send_txs_and_test] of mininode is missing). *)
Definition send_txs_and_test (txs : list CTransaction)
    (success expect_ban : bool) (reject_reason : option string) : M NS unit :=
  fun st =>
    let '(v, ns) := p2p_txs node txs (node_st st) in
    let st' := emit (EvSendTxs txs v) (set_node_st ns st) in
    if verdict_agrees success expect_ban reject_reason v
    then (Normal tt, st') else (Raised AssertionError, st').

(** Modelled from the spec: the direct variant of the submit channel
    ([assert_raises_rpc_error] of util around [node.sendrawtransaction]):
    the call must fail with the given numeric code and message. *)
Definition assert_raises_rpc_error_sendrawtransaction (code : Z) (message : string)
    (tx : CTransaction) : M NS unit :=
  fun st =>
    let '(answer, ns) := sendrawtransaction node tx (node_st st) in
    let st' := emit (EvSendRawTransaction tx answer) (set_node_st ns st) in
    match answer with
    | inr (c, m) =>
        if bool_decide (c = code) && bool_decide (m = message)
        then (Normal tt, st') else (Raised AssertionError, st')
    | inl _ => (Raised AssertionError, st')
    end.

(** [assert_equal(a, b)] of util. *)
Definition assert_equal {A} `{EqDecision A} (a b : A) : M NS unit :=
  if bool_decide (a = b) then ret tt else raise AssertionError.

(** *** Methods of the test object *)

(** Get the best block. Register its height so we can use build_block. *)
Definition getbestblock : M NS CBlock :=
  fun st =>
    let block_height := getblockcount node (node_st st) in
    let blockhash := getblockhash node block_height (node_st st) in
    let block := getblock node blockhash (node_st st) in
    (Normal block,
     set_block_heights (<[sha256 block := block_height]> (block_heights st)) st).

(** [self.block_heights[key]] *)
Definition block_heights_getitem (key : Z) : M NS Z :=
  fun st =>
    match block_heights st !! key with
    | Some h => (Normal h, st)
    | None => (Raised KeyError, st)
    end.

(** [self.block_heights[key] = h] *)
Definition block_heights_setitem (key h : Z) : M NS unit :=
  fun st => (Normal tt, set_block_heights (<[key := h]> (block_heights st)) st).

(** [block.solve()] *)
Definition solve (b : CBlock) : CBlock :=
  mkBlock (hashPrevBlock b) (hashMerkleRoot b) (nTime b) (solve_nonce fw b) (vtx b).

(** The block that [build_block] assembles once the height is known. *)
Definition assemble_block (parent : CBlock) (block_height : Z)
    (transactions : list CTransaction) (nTime_arg : option Z) : CBlock :=
  let block_time :=
    match nTime_arg with None => nTime parent + 1 | Some t => t end in
  let block :=
    create_block fw (sha256 parent)
      (create_coinbase fw block_height (CScript_ops [OP_TRUE fw])) block_time in
  let vtx1 := vtx block ++ transactions in
  let vtx2 := make_conform_to_ctor fw vtx1 in
  solve (mkBlock (hashPrevBlock block) (calc_merkle_root fw vtx2)
                 (nTime block) (nNonce block) vtx2).

(** Make a new block with an OP_1 coinbase output.
    Requires parent to have its height registered. *)
Definition build_block (parent : CBlock) (transactions : list CTransaction)
    (nTime_arg : option Z) : M NS CBlock :=
  h <- block_heights_getitem (sha256 parent);;
  let block_height := h + 1 in
  let block := assemble_block parent block_height transactions nTime_arg in
  block_heights_setitem (sha256 block) block_height;;
  ret block.

(** Check we don't trigger a ban when sending a txn that the node rejects. *)
Definition check_for_no_ban_on_rejected_tx (tx : CTransaction)
    (reject_reason : string) : M NS unit :=
  send_txs_and_test [tx] false false (Some reject_reason).

(** Check we trigger a ban when sending a txn that the node rejects. *)
Definition check_for_ban_on_rejected_tx (tx : CTransaction)
    (reject_reason : option string) : M NS unit :=
  send_txs_and_test [tx] false true reject_reason.

(** Check we trigger a ban when sending a block that the node rejects. *)
Definition check_for_ban_on_rejected_block (block : CBlock)
    (reject_reason : option string) : M NS unit :=
  send_blocks_and_test [block] false true reject_reason.

(** *** The fixture factory (the closure inside [run_test]) *)

(** [spendable_outputs.pop()] *)
Definition spendable_outputs_pop : M NS CTransaction :=
  fun st =>
    match reverse (spendable_outputs st) with
    | [] => (Raised IndexError, st)
    | x :: rest => (Normal x, set_spendable_outputs (reverse rest) st)
    end.

(** [fundings.append(tx)] *)
Definition fundings_append (tx : CTransaction) : M NS unit :=
  fun st => (Normal tt, set_fundings (fundings st ++ [tx]) st).

(** The funding transaction made from a source. *)
Definition fund_tx (spendfrom : CTransaction) (value : Z) : CTransaction :=
  pad_tx fw (create_transaction fw spendfrom 0 [] value (CScript_ops [OP_ADD fw])).

(** The spending transaction made for a funding transaction. *)
Definition spend_tx (txfund : CTransaction) (value : Z) : CTransaction :=
  let txspend := CTransaction_new in
  let txspend :=
    mkTx (vin txspend)
         (vout txspend ++ [mkTxOut (value - 1000) (CScript_ops [OP_TRUE fw])]) in
  let txspend :=
    mkTx (vin txspend ++ [mkTxIn (mkOutPoint (tx_sha256 fw txfund) 0) []])
         (vout txspend) in
  (* Sign the transaction: txspend.vin[0].scriptSig = PUSH1(0x01) OP_1 *)
  let txspend :=
    match vin txspend with
    | i :: rest =>
        mkTx (mkTxIn (prevout i) (CScript_bytes [1; 1; 81]) :: rest) (vout txspend)
    | [] => txspend
    end in
  pad_tx fw txspend.

Definition create_fund_and_spend_tx : M NS CTransaction :=
  spendfrom <- spendable_outputs_pop;;
  out0 <- first_elem (vout spendfrom);;
  let value := nValue out0 in
  let txfund := fund_tx spendfrom value in
  fundings_append txfund;;
  ret (spend_tx txfund value).

(** *** [run_test], cut at its [logging.info] lines *)

Definition set_spendable (l : list CTransaction) : M NS unit :=
  fun st => (Normal tt, set_spendable_outputs l st).
Definition reset_fundings : M NS unit :=
  fun st => (Normal tt, set_fundings [] st).
Definition get_fundings : M NS (list CTransaction) :=
  fun st => (Normal (fundings st), st).

(** One round of [tip = self.build_block(tip); blocks.append(tip)], with an
    optional explicit timestamp. *)
Definition extend_chain (nTime_arg : option Z) (acc : CBlock * list CBlock)
    : M NS (CBlock * list CBlock) :=
  tip <- build_block acc.1 [] nTime_arg;;
  ret (tip, acc.2 ++ [tip]).

(** The loop of lines 222-224: a block for every offset [i] in [l], with
    timestamp [NOV2019_START_TIME + i]. *)
Definition timed_loop (l : list Z) (acc : CBlock * list CBlock)
    : M NS (CBlock * list CBlock) :=
  for_each (fun acc i => extend_chain (Some (NOV2019_START_TIME + i)) acc) l acc.

(** Lines 131-149: a first block, the peer connection, ten blocks with an
    OP_1 coinbase, their coinbases as the pool, a hundred blocks on top. *)
Definition setup : M NS CBlock :=
  node_generate 1;;
  bootstrap_p2p;;
  tip <- getbestblock;;
  log_info "Create some blocks with OP_1 coinbase for spending.";;
  r <- for_each (fun acc _ => extend_chain None acc) (py_range 0 10) (tip, []);;
  let blocks := r.2 in
  send_blocks_and_test blocks true false None;;
  outs <- comprehension (fun block => first_elem (vtx block)) blocks;;
  set_spendable outs;;
  log_info "Mature the blocks and get out of IBD.";;
  node_generate 100;;
  getbestblock.

(** Lines 151-188: three fixtures, their fundings mined in one block. *)
Definition fund_fixtures (tip : CBlock)
    : M NS (CBlock * (CTransaction * CTransaction * CTransaction)) :=
  log_info "Setting up spends to test and mining the fundings.";;
  reset_fundings;;
  nonminimaltx <- create_fund_and_spend_tx;;
  nonminimaltx_2 <- create_fund_and_spend_tx;;
  nonminimaltx_3 <- create_fund_and_spend_tx;;
  fs <- get_fundings;;
  tip <- build_block tip fs None;;
  send_blocks_and_test [tip] true false None;;
  ret (tip, (nonminimaltx, nonminimaltx_2, nonminimaltx_3)).

(** Lines 190-213: the standalone submissions before the upgrade, and the
    first fixture mined. *)
Definition preupgrade_tests (tip : CBlock)
    (nonminimaltx nonminimaltx_2 nonminimaltx_3 : CTransaction) : M NS CBlock :=
  log_info "Start preupgrade tests";;
  log_info "Sending rejected transactions via RPC";;
  assert_raises_rpc_error_sendrawtransaction (-26) MINIMALPUSH_ERROR nonminimaltx;;
  assert_raises_rpc_error_sendrawtransaction (-26) MINIMALPUSH_ERROR nonminimaltx_2;;
  assert_raises_rpc_error_sendrawtransaction (-26) MINIMALPUSH_ERROR nonminimaltx_3;;
  log_info "Sending rejected transactions via net (no banning)";;
  check_for_no_ban_on_rejected_tx nonminimaltx MINIMALPUSH_ERROR;;
  check_for_no_ban_on_rejected_tx nonminimaltx_2 MINIMALPUSH_ERROR;;
  check_for_no_ban_on_rejected_tx nonminimaltx_3 MINIMALPUSH_ERROR;;
  pool <- node_getrawmempool;;
  assert_equal pool [];;
  log_info "Successfully mine nonstandard transaction";;
  tip <- build_block tip [nonminimaltx] None;;
  send_blocks_and_test [tip] true false None;;
  ret tip.

(** Lines 217-230: the clock moved to the upgrade time, six blocks with
    timestamps starting at NOV2019_START_TIME - 1. *)
Definition approach (tip : CBlock) : M NS CBlock :=
  log_info "Approach to just before upgrade activation";;
  node_setmocktime NOV2019_START_TIME;;
  r <- timed_loop (py_range (-1) 5) (tip, []);;
  send_blocks_and_test r.2 true false None;;
  mtp <- node_mediantime;;
  assert_equal mtp (NOV2019_START_TIME - 1);;
  ret r.1.

(** Lines 232-242: the activation block itself. *)
Definition activation_block (tip : CBlock) (nonminimaltx_2 : CTransaction)
    : M NS CBlock :=
  log_info "Mine the activation block itself, including a minimaldata violation at the last possible moment";;
  tip <- build_block tip [nonminimaltx_2] None;;
  send_blocks_and_test [tip] true false None;;
  log_info "We have activated!";;
  mtp <- node_mediantime;;
  assert_equal mtp NOV2019_START_TIME;;
  ret tip.

(** Lines 244-247: one block later. *)
Definition too_late (tip : CBlock) (nonminimaltx_3 : CTransaction) : M NS unit :=
  log_info "Trying to mine a minimaldata violation, but we are just barely too late";;
  block <- build_block tip [nonminimaltx_3] None;;
  check_for_ban_on_rejected_block block (Some BADSIGNATURE_ERROR).

(** Lines 249-258: what the script has below its [return]. *)
Definition after_return (tip : CBlock) (nonminimaltx_3 : CTransaction) : M NS unit :=
  log_info "If we try to submit it by mempool or RPC we still aren't banned";;
  message <- rpc_error_by_position MINIMALPUSH_ERROR;;
  assert_raises_rpc_error_sendrawtransaction (-26) message nonminimaltx_3;;
  check_for_no_ban_on_rejected_tx nonminimaltx_3 MINIMALPUSH_ERROR;;
  log_info "Mine a normal block";;
  tip <- build_block tip [] None;;
  send_blocks_and_test [tip] true false None.

Definition run_test : M NS unit :=
  tip <- setup;;
  r <- fund_fixtures tip;;
  let tip := r.1 in
  let nonminimaltx := r.2.1.1 in
  let nonminimaltx_2 := r.2.1.2 in
  let nonminimaltx_3 := r.2.2 in
  tip <- preupgrade_tests tip nonminimaltx nonminimaltx_2 nonminimaltx_3;;
  preupgrade_block <- approach tip;;
  upgrade_block <- activation_block preupgrade_block nonminimaltx_2;;
  too_late upgrade_block nonminimaltx_3;;
  return_;;
  after_return upgrade_block nonminimaltx_3.

End Scenario.

(** ** Script operations and minimal pushes *)

(** An operation of a script: a data push with the opcode that introduced
    it, or any other opcode. *)
Inductive ScriptOp : Type :=
  | Push (opcode : Z) (data : list Z)
  | Op (opcode : Z).

#[global] Instance ScriptOp_eq_dec : EqDecision ScriptOp.
Proof. solve_decision. Defined.

(** The minimal-push opcode for the number 1 (0x51 in the script's comment
    [PUSH1(0x01) OP_1]). *)
Definition OP_1 : Z := 81.
Definition OP_PUSHDATA1 : Z := 76.
Definition OP_PUSHDATA2 : Z := 77.
Definition OP_PUSHDATA4 : Z := 78.

Definition read_push (opcode : Z) (n : nat) (rest : Script)
    : option (ScriptOp * Script) :=
  if decide (n ≤ length rest)%nat
  then Some (Push opcode (take n rest), drop n rest)
  else None.

(** Modelled from the spec: the script serialisation read back into
    operations (the iteration of [CScript] in test_framework.script is
    missing).  Opcodes 1..75 push that many bytes; OP_PUSHDATA1/2/4 are
    followed by a little-endian length of 1, 2 or 4 bytes. *)
Definition get_op (s : Script) : option (ScriptOp * Script) :=
  match s with
  | [] => None
  | opc :: rest =>
      if decide (1 ≤ opc ≤ 75) then read_push opc (Z.to_nat opc) rest
      else if decide (opc = OP_PUSHDATA1) then
        match rest with
        | l0 :: rest' => read_push opc (Z.to_nat l0) rest'
        | _ => None
        end
      else if decide (opc = OP_PUSHDATA2) then
        match rest with
        | l0 :: l1 :: rest' => read_push opc (Z.to_nat (l0 + 256 * l1)) rest'
        | _ => None
        end
      else if decide (opc = OP_PUSHDATA4) then
        match rest with
        | l0 :: l1 :: l2 :: l3 :: rest' =>
            read_push opc
              (Z.to_nat (l0 + 256 * l1 + 65536 * l2 + 16777216 * l3)) rest'
        | _ => None
        end
      else Some (Op opc, rest)
  end.

Fixpoint script_ops_fuel (fuel : nat) (s : Script) : option (list ScriptOp) :=
  match s with
  | [] => Some []
  | _ =>
      match fuel with
      | O => None
      | S fuel' =>
          match get_op s with
          | Some (o, rest) => cons o <$> script_ops_fuel fuel' rest
          | None => None
          end
      end
  end.

(** Every operation takes at least one byte, so the length is enough fuel. *)
Definition script_ops (s : Script) : option (list ScriptOp) :=
  script_ops_fuel (length s) s.

(** Modelled from the spec: minimal push encoding, the convention that a
    script uses the shortest valid opcode or encoding to push a value (the
    interpreter that enforces it is part of the node).  Numbers 1..16 and -1
    have opcodes of their own; other data takes the shortest length prefix. *)
Definition minimal_push (o : ScriptOp) : bool :=
  match o with
  | Op _ => true
  | Push opcode data =>
      match data with
      | [] => false
      | [b] =>
          if decide (1 ≤ b ≤ 16) then false
          else if decide (b = 129) then false
          else bool_decide (opcode = 1)
      | _ =>
          let n := Z.of_nat (length data) in
          if decide (n ≤ 75) then bool_decide (opcode = n)
          else if decide (n ≤ 255) then bool_decide (opcode = OP_PUSHDATA1)
          else if decide (n ≤ 65535) then bool_decide (opcode = OP_PUSHDATA2)
          else true
      end
  end.

(** The shortest script that pushes the one-byte number [b] in 1..16. *)
Definition minimal_number_push (b : Z) : Script := [OP_1 + (b - 1)].

Definition script_violates_minimaldata (s : Script) : bool :=
  match script_ops s with
  | Some ops => negb (forallb minimal_push ops)
  | None => false
  end.

Definition tx_violates_minimaldata (tx : CTransaction) : bool :=
  existsb (fun i => script_violates_minimaldata (scriptSig i)) (vin tx).

(** ** Median time past *)

(** Modelled from the spec: MTP, the median of the timestamps of the last 11
    blocks (fewer near the start of the chain), as the sorted median.  The
    timestamps are listed newest first. *)
Definition median_time_past (times : list Z) : Z :=
  let window := merge_sort Z.le (take 11 times) in
  nth (length window / 2) window 0.

(** ** A reference implementation of the imports and of the node

    A small concrete [Framework] and a node that applies the rules the
    scenario exercises; the scenario is run against them below.  Neither is
    part of the script: the hashes are arithmetic stand-ins, and the node
    keeps only what the scenario can observe. *)
Module Reference.

Definition modulus : Z := 2305843009213693951.
Definition mix (a b : Z) : Z := (a * 1000003 + b + 1) mod modulus.
Definition mix_list (l : list Z) : Z := foldl mix 7 l.

Definition hash_outpoint (o : COutPoint) : Z := mix (op_hash o) (op_n o).
Definition hash_txin (i : CTxIn) : Z :=
  mix (hash_outpoint (prevout i)) (mix_list (scriptSig i)).
Definition hash_txout (o : CTxOut) : Z :=
  mix (nValue o) (mix_list (scriptPubKey o)).
Definition hash_tx (tx : CTransaction) : Z :=
  mix (mix_list (hash_txin <$> vin tx)) (mix_list (hash_txout <$> vout tx)).
Definition merkle (txs : list CTransaction) : Z := mix_list (hash_tx <$> txs).
Definition hash_block (b : CBlock) : Z :=
  mix_list [hashPrevBlock b; hashMerkleRoot b; nTime b; nNonce b].

Definition coinbase (height : Z) (script : Script) : CTransaction :=
  mkTx [mkTxIn (mkOutPoint 0 4294967295) [height]] [mkTxOut 5000000000 script].

Definition transaction (prevtx : CTransaction) (n : Z) (sig : Script)
    (value : Z) (out : Script) : CTransaction :=
  mkTx [mkTxIn (mkOutPoint (hash_tx prevtx) n) sig] [mkTxOut value out].

(** Padding: one unspendable OP_RETURN output at the end. *)
Definition pad (tx : CTransaction) : CTransaction :=
  mkTx (vin tx) (vout tx ++ [mkTxOut 0 [106]]).

Definition tx_le (a b : CTransaction) : Prop := hash_tx a ≤ hash_tx b.
#[global] Instance tx_le_dec a b : Decision (tx_le a b).
Proof. unfold tx_le. apply _. Defined.

(** Canonical order: the coinbase, then the rest by transaction id. *)
Definition conform_to_ctor (txs : list CTransaction) : list CTransaction :=
  match txs with
  | [] => []
  | cb :: rest => cb :: merge_sort tx_le rest
  end.

(** Modelled from the spec: the imports of the script (blocktools, txtools,
    script, the hashing of nodemessages), which are missing: a coinbase pays
    to the given script, a funding transaction redirects the value of one
    output into the given script, padding appends an unspendable output, the
    transactions of a block are put in canonical order. *)
Definition fw : Framework :=
  {| OP_ADD := 147;
     OP_TRUE := OP_1;
     tx_sha256 := hash_tx;
     block_sha256 := hash_block;
     calc_merkle_root := merkle;
     solve_nonce := fun _ => 0;
     create_coinbase := coinbase;
     create_transaction := transaction;
     pad_tx := pad;
     make_conform_to_ctor := conform_to_ctor |}.

(** The node: its active chain (tip first), its clock and its mempool. *)
Record NodeState : Type := mkNodeState {
  chain : list CBlock;
  clock : Z;
  mempool : list CTransaction
}.

Definition chain_mtp (c : list CBlock) : Z := median_time_past (nTime <$> c).

Definition tip_hash (c : list CBlock) : Z :=
  match c with
  | [] => 0
  | b :: _ => hash_block b
  end.

(** When the upgrade rule binds a block: by the rule of the node, once the
    MTP of the block's parent has reached the activation time; by the
    [strict] alternative, already for the block that brings the MTP of the
    chain to the activation time. *)
Definition rule_binds (strict : bool) (c : list CBlock) (b : CBlock) : bool :=
  if strict then bool_decide (NOV2019_START_TIME ≤ chain_mtp (b :: c))
  else bool_decide (NOV2019_START_TIME ≤ chain_mtp c).

(** Modelled from the spec: the validation engine seen from outside (it is
    an external collaborator).  A block must extend the tip, be later than
    the median time past and not too far ahead of the clock; once the rule
    binds, a block that embeds a violating transaction is invalid and its
    sender is banned. *)
Definition connect_block (strict : bool) (b : CBlock) (s : NodeState)
    : SubmissionResult * NodeState :=
  if negb (bool_decide (hashPrevBlock b = tip_hash (chain s)))
  then (RejectedNoBan "prev-blk-not-found", s)
  else if bool_decide (nTime b ≤ chain_mtp (chain s))
  then (RejectedWithBan "time-too-old", s)
  else if bool_decide (clock s + 7200 < nTime b)
  then (RejectedNoBan "time-too-new", s)
  else if rule_binds strict (chain s) b && existsb tx_violates_minimaldata (vtx b)
  then (RejectedWithBan BADSIGNATURE_ERROR, s)
  else (Accepted, mkNodeState (b :: chain s) (clock s) (mempool s)).

Fixpoint connect_blocks (strict : bool) (bs : list CBlock) (s : NodeState)
    : SubmissionResult * NodeState :=
  match bs with
  | [] => (Accepted, s)
  | b :: bs' =>
      match connect_block strict b s with
      | (Accepted, s') => connect_blocks strict bs' s'
      | rejected => rejected
      end
  end.

(** Modelled from the spec: relay policy.  A violating transaction is
    rejected as non-standard, before and after activation, without a ban. *)
Definition accept_to_mempool (tx : CTransaction) (s : NodeState)
    : SubmissionResult * NodeState :=
  if tx_violates_minimaldata tx
  then (RejectedNoBan MINIMALPUSH_ERROR, s)
  else (Accepted, mkNodeState (chain s) (clock s) (mempool s ++ [tx])).

Fixpoint accept_txs (txs : list CTransaction) (s : NodeState)
    : SubmissionResult * NodeState :=
  match txs with
  | [] => (Accepted, s)
  | tx :: txs' =>
      match accept_to_mempool tx s with
      | (Accepted, s') => accept_txs txs' s'
      | rejected => rejected
      end
  end.

Definition rpc_sendrawtransaction (tx : CTransaction) (s : NodeState)
    : (Z + Z * string) * NodeState :=
  match accept_to_mempool tx s with
  | (Accepted, s') => (inl (hash_tx tx), s')
  | (RejectedNoBan r, s') => (inr (-26, r), s')
  | (RejectedWithBan r, s') => (inr (-26, r), s')
  end.

(** A block of the node's own making on top of its chain. *)
Definition mine_one (s : NodeState) : NodeState :=
  let c := chain s in
  let b :=
    mkBlock (tip_hash c) (merkle [coinbase (Z.of_nat (length c)) []])
            (Z.max (chain_mtp c + 1) (clock s)) 0
            [coinbase (Z.of_nat (length c)) []] in
  mkNodeState (b :: c) (clock s) (mempool s).

Definition mine (n : Z) (s : NodeState) : NodeState :=
  Nat.iter (Z.to_nat n) mine_one s.

Definition block_at_height (h : Z) (s : NodeState) : CBlock :=
  nth (length (chain s) - 1 - Z.to_nat h) (chain s) (mkBlock 0 0 0 0 []).

Definition block_by_hash (h : Z) (s : NodeState) : CBlock :=
  match filter (fun b => hash_block b = h) (chain s) with
  | b :: _ => b
  | [] => mkBlock 0 0 0 0 []
  end.

(** Modelled from the spec: the node behind the external interfaces. *)
Definition node (strict : bool) : Node NodeState :=
  {| handshake := fun s => (true, s);
     generate := mine;
     getblockcount := fun s => Z.of_nat (length (chain s)) - 1;
     getblockhash := fun h s => hash_block (block_at_height h s);
     getblock := block_by_hash;
     p2p_blocks := connect_blocks strict;
     p2p_txs := accept_txs;
     sendrawtransaction := rpc_sendrawtransaction;
     getrawmempool := fun s => hash_tx <$> mempool s;
     setmocktime := fun t s => mkNodeState (chain s) t (mempool s);
     mediantime := fun s => chain_mtp (chain s) |}.

Definition genesis : CBlock := mkBlock 0 0 1296688602 2 [coinbase 0 []].

(** A fresh regtest node in October 2019. *)
Definition fresh : NodeState := mkNodeState [genesis] 1572000000 [].

(** The run of the scenario against the node, from [set_test_params]. *)
Definition run (strict : bool) : Outcome unit * TestState NodeState :=
  run_test fw (node strict) (initial_state fresh).

(** A pool of three coinbases with an OP_1 output, and nothing else. *)
Definition pool3 : list CTransaction :=
  [coinbase 1 [OP_1]; coinbase 2 [OP_1]; coinbase 3 [OP_1]].
Definition with_pool3 : TestState unit := mkState ∅ pool3 [] tt [].

End Reference.

(** ** The vocabulary of the properties *)

(** A piece of the script without a [return] statement never ends as
    [Returned]. *)
Definition no_return {NS A} (m : M NS A) : Prop :=
  forall st st', m st <> (Returned, st').

(** A piece of the script that cannot fall through its end. *)
Definition never_falls_through {NS A} (m : M NS A) : Prop :=
  forall st a, (m st).1 <> Normal a.

(** A relation between the state before and after that every step of a
    piece of the script keeps. *)
Definition stable {NS} (R : relation (TestState NS)) {A} (m : M NS A) : Prop :=
  forall st, R st (m st).2.

(** The height registry only gains keys. *)
Definition heights_grow {NS} : relation (TestState NS) :=
  fun st st' => dom (block_heights st) ⊆ dom (block_heights st').

(** The run has added interactions on top of the earlier ones, all of
    them in [P]. *)
Definition emits {NS} (P : Event -> Prop) : relation (TestState NS) :=
  fun st st' => exists new, trace st' = new ++ trace st /\ Forall P new.

(** The value the factory reads off a source: [spendfrom.vout[0].nValue]. *)
Definition source_value (spendfrom : CTransaction) : Z :=
  match vout spendfrom with
  | o :: _ => nValue o
  | [] => 0
  end.

Definition funding_of (fw : Framework) (spendfrom : CTransaction) : CTransaction :=
  fund_tx fw spendfrom (source_value spendfrom).

Definition fixture_of (fw : Framework) (spendfrom : CTransaction) : CTransaction :=
  spend_tx fw (funding_of fw spendfrom) (source_value spendfrom).

Definition has_output (tx : CTransaction) : Prop := vout tx <> [].

(** [k] calls of the factory in a row, with what they returned. *)
Definition call_factory {NS} (fw : Framework) (k : nat) : M NS (list CTransaction) :=
  comprehension (fun _ : unit => create_fund_and_spend_tx fw) (replicate k tt).

(** The transactions the factory returns. *)
Definition is_fixture (fw : Framework) (tx : CTransaction) : Prop :=
  exists txfund value, tx = spend_tx fw txfund value.

(** The encoding of the literal as the design notes describe it: the three
    bytes are one push, made of an opcode, a length byte saying 1, and the
    value byte. *)
Definition explicit_three_byte_push (s : Script) : Prop :=
  exists opcode len value,
    s = [opcode; len; value] /\ len = 1 /\ script_ops s = Some [Push opcode [value]].

(** The timestamps the loop of lines 222-224 puts on its blocks. *)
Definition crossing_times : list Z :=
  (fun i => NOV2019_START_TIME + i) <$> py_range (-1) 5.

(** The two [logging.info] lines below the [return] of line 248. *)
Definition trailing_log (e : Event) : Prop :=
  e = EvLog "If we try to submit it by mempool or RPC we still aren't banned" \/
  e = EvLog "Mine a normal block".

(** A transaction sent on its own, on either channel. *)
Definition standalone_submission (e : Event) : bool :=
  match e with
  | EvSendTxs _ _ | EvSendRawTransaction _ _ => true
  | _ => false
  end.

(** The outcome the scenario demands of a standalone submission. *)
Definition rejected_without_ban (e : Event) : bool :=
  match e with
  | EvSendTxs txs v =>
      forallb tx_violates_minimaldata txs
      && bool_decide (v = RejectedNoBan MINIMALPUSH_ERROR)
  | EvSendRawTransaction tx a =>
      tx_violates_minimaldata tx && bool_decide (a = inr (-26, MINIMALPUSH_ERROR))
  | _ => true
  end.

(** The events of a trace (newest first) that are newer than [mark]. *)
Fixpoint since (mark : Event) (tr : list Event) : list Event :=
  match tr with
  | [] => []
  | e :: tr' => if decide (e = mark) then [] else e :: since mark tr'
  end.


(** ** Reasoning about the monad *)

Section MonadFacts.
Context {NS : Type}.
Implicit Types st : TestState NS.

Lemma bind_Normal_inv {A B} (m : M NS A) (f : A -> M NS B) st b st' :
  bind m f st = (Normal b, st') ->
  exists a st1, m st = (Normal a, st1) /\ f a st1 = (Normal b, st').
Proof.
  unfold bind. destruct (m st) as [[a| |e] st1]; try discriminate. eauto.
Qed.

Lemma bind_Normal {A B} (m : M NS A) (f : A -> M NS B) st a st1 :
  m st = (Normal a, st1) -> bind m f st = f a st1.
Proof. unfold bind. intros ->. reflexivity. Qed.

Lemma bind_Raised {A B} (m : M NS A) (f : A -> M NS B) st e st1 :
  m st = (Raised e, st1) -> bind m f st = (Raised e, st1).
Proof. unfold bind. intros ->. reflexivity. Qed.

Lemma no_return_ret {A} (a : A) : no_return (NS:=NS) (ret a).
Proof. intros st st'. discriminate. Qed.

Lemma no_return_raise {A} e : no_return (NS:=NS) (raise (A:=A) e).
Proof. intros st st'. discriminate. Qed.

Lemma no_return_bind {A B} (m : M NS A) (f : A -> M NS B) :
  no_return m -> (forall a, no_return (f a)) -> no_return (bind m f).
Proof.
  intros Hm Hf st st'. unfold bind.
  destruct (m st) as [[a| |e] st1] eqn:E.
  - apply Hf.
  - exfalso. exact (Hm _ _ E).
  - discriminate.
Qed.

Lemma no_return_for_each {A B} (body : B -> A -> M NS B) l :
  (forall b a, no_return (body b a)) -> forall b, no_return (for_each body l b).
Proof.
  intros Hb. induction l as [|a l IH]; intros b; simpl.
  - apply no_return_ret.
  - apply no_return_bind; auto.
Qed.

Lemma no_return_comprehension {A B} (f : A -> M NS B) l :
  (forall a, no_return (f a)) -> no_return (comprehension f l).
Proof.
  intros Hf. induction l as [|a l IH]; simpl.
  - apply no_return_ret.
  - apply no_return_bind; [auto|]. intros b.
    apply no_return_bind; [auto|]. intros bs. apply no_return_ret.
Qed.

Lemma bind_Returned_inv {A B} (m : M NS A) (f : A -> M NS B) st st' :
  no_return m ->
  bind m f st = (Returned, st') ->
  exists a st1, m st = (Normal a, st1) /\ f a st1 = (Returned, st').
Proof.
  intros Hm. unfold bind. destruct (m st) as [[a| |e] st1] eqn:E.
  - eauto.
  - exfalso. exact (Hm _ _ E).
  - discriminate.
Qed.

Section Stable.
Context (R : relation (TestState NS)) `{!PreOrder R}.

Lemma stable_ret {A} (a : A) : stable R (ret a).
Proof. intros st. simpl. reflexivity. Qed.

Lemma stable_raise {A} e : stable R (raise (A:=A) e).
Proof. intros st. simpl. reflexivity. Qed.

Lemma stable_return : stable R return_.
Proof. intros st. simpl. reflexivity. Qed.

Lemma stable_bind {A B} (m : M NS A) (f : A -> M NS B) :
  stable R m -> (forall a, stable R (f a)) -> stable R (bind m f).
Proof.
  intros Hm Hf st. unfold bind. specialize (Hm st).
  destruct (m st) as [[a| |e] st1]; simpl in *; auto.
  etransitivity; [exact Hm|]. apply Hf.
Qed.

(** Whatever stands below a [return] does not matter. *)
Lemma stable_bind_return {B} (k : unit -> M NS B) : stable R (bind return_ k).
Proof. intros st. simpl. reflexivity. Qed.

Lemma stable_for_each {A B} (body : B -> A -> M NS B) l :
  (forall b a, stable R (body b a)) -> forall b, stable R (for_each body l b).
Proof.
  intros Hb. induction l as [|a l IH]; intros b; simpl.
  - apply stable_ret.
  - apply stable_bind; auto.
Qed.

Lemma stable_comprehension {A B} (f : A -> M NS B) l :
  (forall a, stable R (f a)) -> stable R (comprehension f l).
Proof.
  intros Hf. induction l as [|a l IH]; simpl.
  - apply stable_ret.
  - apply stable_bind; [auto|]. intros b.
    apply stable_bind; [auto|]. intros bs. apply stable_ret.
Qed.
End Stable.

#[global] Instance heights_grow_preorder : PreOrder (heights_grow (NS:=NS)).
Proof.
  split.
  - intros st. unfold heights_grow. set_solver.
  - intros a b c. unfold heights_grow. set_solver.
Qed.

#[global] Instance emits_preorder P : PreOrder (emits (NS:=NS) P).
Proof.
  split.
  - intros st. exists []. split; [reflexivity|constructor].
  - intros a b c (n1 & E1 & F1) (n2 & E2 & F2). exists (n2 ++ n1). split.
    + rewrite E2, E1. by rewrite app_assoc.
    + apply Forall_app. done.
Qed.

Lemma emits_one (P : Event -> Prop) e st : P e -> emits P st (emit e st).
Proof. intros H. exists [e]. split; [reflexivity|]. by constructor. Qed.

End MonadFacts.

(** ** Facts about the pieces of the script *)

Create HintDb script_nr discriminated.

Ltac unfold_prims :=
  unfold check_for_no_ban_on_rejected_tx, check_for_ban_on_rejected_tx,
    check_for_ban_on_rejected_block in *;
  unfold log_info, node_generate, node_setmocktime, node_getrawmempool,
    node_mediantime, bootstrap_p2p, send_blocks_and_test, send_txs_and_test,
    assert_raises_rpc_error_sendrawtransaction, assert_equal, getbestblock,
    block_heights_getitem, block_heights_setitem, spendable_outputs_pop,
    fundings_append, set_spendable, reset_fundings, get_fundings, first_elem,
    rpc_error_by_position, ret, raise, return_ in *.

Ltac prim_no_return :=
  let st := fresh "st" in let st' := fresh "st'" in
  intros st st'; unfold_prims; repeat case_match; discriminate.

Ltac prim_stable_heights :=
  let st := fresh "st" in
  intros st; unfold_prims; unfold heights_grow; repeat case_match; simpl;
  rewrite ?dom_insert_L; set_solver.

Ltac prim_stable_emits :=
  let st := fresh "st" in
  intros st; unfold_prims; repeat case_match; simpl;
  first
    [ reflexivity
    | eexists [_]; split; [ reflexivity | constructor; [ auto | constructor ] ] ].

Section ScenarioFacts.
Context {NS : Type} (fw : Framework) (node : Node NS).
Implicit Types st : TestState NS.

(** *** No primitive executes [return] *)

Lemma nr_log_info msg : no_return (NS:=NS) (log_info msg).
Proof. prim_no_return. Qed.
Lemma nr_node_generate n : no_return (node_generate node n).
Proof. prim_no_return. Qed.
Lemma nr_node_setmocktime t : no_return (node_setmocktime node t).
Proof. prim_no_return. Qed.
Lemma nr_node_getrawmempool : no_return (node_getrawmempool node).
Proof. prim_no_return. Qed.
Lemma nr_node_mediantime : no_return (node_mediantime node).
Proof. prim_no_return. Qed.
Lemma nr_bootstrap_p2p : no_return (bootstrap_p2p node).
Proof. prim_no_return. Qed.
Lemma nr_send_blocks_and_test bs s b r :
  no_return (send_blocks_and_test node bs s b r).
Proof. prim_no_return. Qed.
Lemma nr_send_txs_and_test txs s b r :
  no_return (send_txs_and_test node txs s b r).
Proof. prim_no_return. Qed.
Lemma nr_assert_raises c m tx :
  no_return (assert_raises_rpc_error_sendrawtransaction node c m tx).
Proof. prim_no_return. Qed.
Lemma nr_assert_equal {A} `{EqDecision A} (a b : A) :
  no_return (NS:=NS) (assert_equal a b).
Proof. prim_no_return. Qed.
Lemma nr_getbestblock : no_return (getbestblock fw node).
Proof. prim_no_return. Qed.
Lemma nr_block_heights_getitem k : no_return (NS:=NS) (block_heights_getitem k).
Proof. prim_no_return. Qed.
Lemma nr_block_heights_setitem k h : no_return (NS:=NS) (block_heights_setitem k h).
Proof. prim_no_return. Qed.
Lemma nr_spendable_outputs_pop : no_return (NS:=NS) spendable_outputs_pop.
Proof. prim_no_return. Qed.
Lemma nr_fundings_append tx : no_return (NS:=NS) (fundings_append tx).
Proof. prim_no_return. Qed.
Lemma nr_set_spendable l : no_return (NS:=NS) (set_spendable l).
Proof. prim_no_return. Qed.
Lemma nr_reset_fundings : no_return (NS:=NS) reset_fundings.
Proof. prim_no_return. Qed.
Lemma nr_get_fundings : no_return (NS:=NS) get_fundings.
Proof. prim_no_return. Qed.
Lemma nr_first_elem {A} (l : list A) : no_return (NS:=NS) (first_elem l).
Proof. prim_no_return. Qed.
Lemma nr_rpc_error_by_position s : no_return (NS:=NS) (rpc_error_by_position s).
Proof. prim_no_return. Qed.

End ScenarioFacts.

#[export] Hint Resolve no_return_ret no_return_raise nr_log_info
  nr_node_generate nr_node_setmocktime nr_node_getrawmempool
  nr_node_mediantime nr_bootstrap_p2p nr_send_blocks_and_test
  nr_send_txs_and_test nr_assert_raises nr_assert_equal nr_getbestblock
  nr_block_heights_getitem nr_block_heights_setitem nr_spendable_outputs_pop
  nr_fundings_append nr_set_spendable nr_reset_fundings nr_get_fundings
  nr_first_elem nr_rpc_error_by_position : script_nr.

(** Walks through a piece of the script made of binds, loops and
    primitives. *)
Ltac no_return_tac :=
  repeat first
    [ solve [ auto with script_nr ]
    | apply no_return_bind; [ | intros ? ]
    | apply no_return_for_each; intros ? ?
    | apply no_return_comprehension; intros ? ].

Section PhaseFacts.
Context {NS : Type} (fw : Framework) (node : Node NS).
Implicit Types st : TestState NS.

Lemma nr_build_block parent txs nt : no_return (build_block (NS:=NS) fw parent txs nt).
Proof. unfold build_block. no_return_tac. Qed.

Lemma nr_create_fund_and_spend_tx : no_return (create_fund_and_spend_tx (NS:=NS) fw).
Proof. unfold create_fund_and_spend_tx. no_return_tac. Qed.

#[local] Hint Resolve nr_build_block nr_create_fund_and_spend_tx : script_nr.

Lemma nr_extend_chain nt acc : no_return (extend_chain (NS:=NS) fw nt acc).
Proof. unfold extend_chain. no_return_tac. Qed.

#[local] Hint Resolve nr_extend_chain : script_nr.

Lemma nr_setup : no_return (setup fw node).
Proof. unfold setup. no_return_tac. Qed.

Lemma nr_fund_fixtures tip : no_return (fund_fixtures fw node tip).
Proof. unfold fund_fixtures. no_return_tac. Qed.

Lemma nr_preupgrade_tests tip a b c : no_return (preupgrade_tests fw node tip a b c).
Proof.
  unfold preupgrade_tests, check_for_no_ban_on_rejected_tx. no_return_tac.
Qed.

Lemma nr_approach tip : no_return (approach fw node tip).
Proof. unfold approach, timed_loop. no_return_tac. Qed.

Lemma nr_activation_block tip tx : no_return (activation_block fw node tip tx).
Proof. unfold activation_block. no_return_tac. Qed.

Lemma nr_too_late tip tx : no_return (too_late fw node tip tx).
Proof.
  unfold too_late, check_for_ban_on_rejected_block. no_return_tac.
Qed.

(** A run that ends at the [return] statement went through every phase. *)
Lemma run_test_Returned_inv st st' :
  run_test fw node st = (Returned, st') ->
  exists tip0 st1 tip1 tx1 tx2 tx3 st2 tip2 st3 pre st4 up st5,
    setup fw node st = (Normal tip0, st1) /\
    fund_fixtures fw node tip0 st1 = (Normal (tip1, (tx1, tx2, tx3)), st2) /\
    preupgrade_tests fw node tip1 tx1 tx2 tx3 st2 = (Normal tip2, st3) /\
    approach fw node tip2 st3 = (Normal pre, st4) /\
    activation_block fw node pre tx2 st4 = (Normal up, st5) /\
    too_late fw node up tx3 st5 = (Normal tt, st').
Proof.
  unfold run_test. intros H.
  apply bind_Returned_inv in H as (tip0 & st1 & E1 & H); [|apply nr_setup].
  apply bind_Returned_inv in H as ([tip1 [[tx1 tx2] tx3]] & st2 & E2 & H);
    [|apply nr_fund_fixtures].
  simpl in H.
  apply bind_Returned_inv in H as (tip2 & st3 & E3 & H);
    [|apply nr_preupgrade_tests].
  apply bind_Returned_inv in H as (pre & st4 & E4 & H); [|apply nr_approach].
  apply bind_Returned_inv in H as (up & st5 & E5 & H);
    [|apply nr_activation_block].
  apply bind_Returned_inv in H as ([] & st6 & E6 & H); [|apply nr_too_late].
  unfold bind, return_ in H. simpl in H. injection H as <-.
  repeat eexists; eauto.
Qed.

End PhaseFacts.

(** ** The block builder *)

Section BuildBlock.
Context {NS : Type} (fw : Framework).
Implicit Types st : TestState NS.

Lemma build_block_registered st parent txs nt h :
  block_heights st !! sha256 fw parent = Some h ->
  let B := assemble_block fw parent (h + 1) txs nt in
  build_block fw parent txs nt st =
    (Normal B, set_block_heights (<[sha256 fw B := h + 1]> (block_heights st)) st).
Proof.
  intros Hh B. unfold build_block, bind, block_heights_getitem.
  rewrite Hh. reflexivity.
Qed.

Lemma build_block_unregistered st parent txs nt :
  block_heights st !! sha256 fw parent = None ->
  build_block fw parent txs nt st = (Raised KeyError, st).
Proof.
  intros Hh. unfold build_block, bind, block_heights_getitem.
  rewrite Hh. reflexivity.
Qed.

Lemma build_block_Normal_inv st parent txs nt B st' :
  build_block fw parent txs nt st = (Normal B, st') ->
  exists h, block_heights st !! sha256 fw parent = Some h /\
    B = assemble_block fw parent (h + 1) txs nt /\
    st' = set_block_heights (<[sha256 fw B := h + 1]> (block_heights st)) st.
Proof.
  intros H. destruct (block_heights st !! sha256 fw parent) as [h|] eqn:Hh.
  - rewrite (build_block_registered _ _ _ _ _ Hh) in H.
    injection H as <- <-. eauto.
  - rewrite (build_block_unregistered _ _ _ _ Hh) in H. discriminate.
Qed.

Lemma assemble_block_hashPrevBlock parent h txs nt :
  hashPrevBlock (assemble_block fw parent h txs nt) = sha256 fw parent.
Proof. reflexivity. Qed.

Lemma assemble_block_nTime parent h txs nt :
  nTime (assemble_block fw parent h txs nt) =
    match nt with None => nTime parent + 1 | Some t => t end.
Proof. reflexivity. Qed.

Lemma assemble_block_vtx parent h txs nt :
  vtx (assemble_block fw parent h txs nt) =
    make_conform_to_ctor fw
      (create_coinbase fw h (CScript_ops [OP_TRUE fw]) :: txs).
Proof. reflexivity. Qed.

Lemma assemble_block_embeds parent h txs nt tx :
  FrameworkLaws fw -> tx ∈ txs -> tx ∈ vtx (assemble_block fw parent h txs nt).
Proof.
  intros L Hin. rewrite assemble_block_vtx, (ctor_perm fw L). set_solver.
Qed.

(** C5. A block built on a parent whose height is registered gets the
    parent's registered height plus one as its own registered height (and
    names the parent as its predecessor); building on a parent that was
    never registered fails at the height lookup, with [KeyError], and
    leaves the registry as it was. *)
Theorem build_block_height st (parent : CBlock) (txs : list CTransaction)
    (nt : option Z) :
  match block_heights st !! sha256 fw parent with
  | Some h =>
      exists B st',
        build_block fw parent txs nt st = (Normal B, st') /\
        block_heights st' !! sha256 fw B = Some (h + 1) /\
        hashPrevBlock B = sha256 fw parent /\
        (sha256 fw B <> sha256 fw parent ->
         block_heights st' !! sha256 fw parent = Some h)
  | None => build_block fw parent txs nt st = (Raised KeyError, st)
  end.
Proof.
  destruct (block_heights st !! sha256 fw parent) as [h|] eqn:Hh.
  - eexists _, _. split; [apply (build_block_registered _ _ _ _ _ Hh)|].
    simpl. split; [apply lookup_insert_eq|]. split; [reflexivity|].
    intros Hne. rewrite lookup_insert_ne; done.
  - by apply build_block_unregistered.
Qed.

End BuildBlock.

(** The reference imports satisfy the laws. *)
Lemma reference_fw_laws : FrameworkLaws Reference.fw.
Proof.
split.
- reflexivity.
- intros tx. eexists. reflexivity.
- intros [|cb rest]; simpl; [reflexivity|].
  by rewrite merge_sort_Permutation.
Qed.

(** ** The fixture factory *)

Section Factory.
Context {NS : Type} (fw : Framework).
Implicit Types st : TestState NS.

(** One call on a pool whose last entry has an output. *)
Lemma create_fund_and_spend_tx_run st rest sp :
  spendable_outputs st = rest ++ [sp] ->
  has_output sp ->
  create_fund_and_spend_tx fw st =
    (Normal (fixture_of fw sp),
     set_fundings (fundings st ++ [funding_of fw sp]) (set_spendable_outputs rest st)).
Proof.
  intros Hpool Hout.
  unfold create_fund_and_spend_tx, bind, spendable_outputs_pop.
  rewrite Hpool, reverse_snoc, reverse_involutive.
  unfold fixture_of, funding_of, source_value, has_output in *.
  destruct (vout sp) as [|o os] eqn:Ho; [done|].
  reflexivity.
Qed.

(** A call on the empty pool. *)
Lemma create_fund_and_spend_tx_empty st :
  spendable_outputs st = [] ->
  create_fund_and_spend_tx fw st = (Raised IndexError, st).
Proof.
  intros Hpool.
  unfold create_fund_and_spend_tx, bind, spendable_outputs_pop.
  rewrite Hpool. reflexivity.
Qed.

Lemma spend_tx_vin (L : FrameworkLaws fw) txfund value :
  vin (spend_tx fw txfund value) =
    [mkTxIn (mkOutPoint (tx_sha256 fw txfund) 0) [1; 1; 81]].
Proof. unfold spend_tx. rewrite (pad_tx_vin fw L). reflexivity. Qed.

Lemma spend_tx_vout (L : FrameworkLaws fw) txfund value :
  exists extra,
    vout (spend_tx fw txfund value) =
      mkTxOut (value - 1000) [OP_TRUE fw] :: extra.
Proof.
  unfold spend_tx.
  destruct (pad_tx_vout fw L
    (mkTx [mkTxIn (mkOutPoint (tx_sha256 fw txfund) 0) (CScript_bytes [1; 1; 81])]
          [mkTxOut (value - 1000) (CScript_ops [OP_TRUE fw])])) as [extra E].
  exists extra. exact E.
Qed.

Lemma call_factory_run k : forall st,
  (k ≤ length (spendable_outputs st))%nat ->
  Forall has_output (spendable_outputs st) ->
  let pool := spendable_outputs st in
  let consumed := take k (reverse pool) in
  call_factory fw k st =
    (Normal (fixture_of fw <$> consumed),
     set_fundings (fundings st ++ (funding_of fw <$> consumed))
       (set_spendable_outputs (take (length pool - k) pool) st)).
Proof.
  induction k as [|k IH]; intros st Hk Hall; simpl.
  - unfold call_factory, ret. simpl. rewrite Nat.sub_0_r, firstn_all.
    rewrite app_nil_r. by destruct st.
  - destruct (spendable_outputs st) as [|x l] eqn:Hpool using rev_ind;
      [simpl in Hk; lia|]. clear IHl.
    rename l into rest. rename x into sp.
    rewrite length_app in Hk. simpl in Hk.
    apply Forall_app in Hall as [Hrest Hsp].
    rewrite Forall_singleton in Hsp.
    unfold call_factory. simpl.
    rewrite (bind_Normal _ _ _ _ _ (create_fund_and_spend_tx_run st rest sp Hpool Hsp)).
    fold (call_factory (NS:=NS) fw k).
    set (st1 := set_fundings _ _).
    assert (Hpool1 : spendable_outputs st1 = rest) by reflexivity.
    specialize (IH st1). rewrite Hpool1 in IH.
    specialize (IH ltac:(lia) Hrest). simpl in IH.
    rewrite (bind_Normal _ _ _ _ _ IH). unfold ret.
    rewrite reverse_snoc. simpl.
    rewrite length_app. simpl.
    replace (length rest + 1 - S k)%nat with (length rest - k)%nat by lia.
    rewrite take_app_le by lia.
    subst st1. unfold set_fundings, set_spendable_outputs. simpl.
    rewrite <- app_assoc. reflexivity.
Qed.

Lemma consumed_remaining (pool : list CTransaction) k :
  (k ≤ length pool)%nat ->
  take (length pool - k) pool ++ reverse (take k (reverse pool)) = pool.
Proof.
  intros Hk. rewrite take_reverse, reverse_involutive. apply take_drop.
Qed.

End Factory.

(** Such scripts exist: OP_PUSHDATA1 with length 1. *)
Lemma explicit_three_byte_push_pushdata1 value :
  explicit_three_byte_push [OP_PUSHDATA1; 1; value].
Proof. exists OP_PUSHDATA1, 1, value. done. Qed.

Section FixtureTheorems.
Context {NS : Type} (fw : Framework).
Implicit Types st : TestState NS.

(** C6, amended. The unlocking script of every fixture is the three bytes
    01 01 51: a two-byte push (the opcode that pushes the next single byte,
    then the value byte 1) that encodes the number 1 where the one-byte
    opcode OP_1 would do, followed by OP_1 itself as second operand.  The
    first operation is the only one of the script that is not minimally
    encoded. *)
Theorem fixture_unlocking_script (L : FrameworkLaws fw) st rest sp o os :
  spendable_outputs st = rest ++ [sp] ->
  vout sp = o :: os ->
  exists txspend st' i,
    create_fund_and_spend_tx fw st = (Normal txspend, st') /\
    vin txspend = [i] /\
    scriptSig i = [1; 1; OP_1] /\
    script_ops (scriptSig i) = Some [Push 1 [1]; Op OP_1] /\
    minimal_push (Push 1 [1]) = false /\
    minimal_number_push 1 = [OP_1] /\
    filter (fun op => minimal_push op = false) [Push 1 [1]; Op OP_1] = [Push 1 [1]].
Proof.
intros Hpool Hout.
assert (Hhas : has_output sp) by (unfold has_output; rewrite Hout; done).
eexists _, _, _. split; [apply (create_fund_and_spend_tx_run fw st rest sp Hpool Hhas)|].
split; [apply (spend_tx_vin fw L)|]. simpl. done.
Qed.

(** C10. On a non-empty pool the factory returns a spending transaction
    whose first output pays the value of the consumed output minus 1000 to
    the script OP_TRUE, and whose only input refers to output 0 of the
    funding transaction that the same call appended to [fundings]. *)
Theorem fixture_pays_value_minus_fee (L : FrameworkLaws fw) st rest sp o os :
  spendable_outputs st = rest ++ [sp] ->
  vout sp = o :: os ->
  exists txspend txfund extra sig st',
    create_fund_and_spend_tx fw st = (Normal txspend, st') /\
    spendable_outputs st' = rest /\
    fundings st' = fundings st ++ [txfund] /\
    txfund = pad_tx fw (create_transaction fw sp 0 [] (nValue o) [OP_ADD fw]) /\
    vout txspend = mkTxOut (nValue o - 1000) [OP_TRUE fw] :: extra /\
    vin txspend = [mkTxIn (mkOutPoint (tx_sha256 fw txfund) 0) sig].
Proof.
intros Hpool Hout.
assert (Hhas : has_output sp) by (unfold has_output; rewrite Hout; done).
assert (Hval : source_value sp = nValue o) by (unfold source_value; by rewrite Hout).
destruct (spend_tx_vout fw L (funding_of fw sp) (source_value sp)) as [extra Hextra].
exists (fixture_of fw sp), (funding_of fw sp), extra, [1; 1; 81].
eexists. split; [apply (create_fund_and_spend_tx_run fw st rest sp Hpool Hhas)|].
split; [reflexivity|]. split; [reflexivity|].
split; [unfold funding_of, fund_tx; by rewrite Hval|].
split; [rewrite <- Hval; exact Hextra|].
apply (spend_tx_vin fw L).
Qed.

(** C7. [k] calls of the factory on a pool of at least [k] sources succeed
    and consume the last [k] entries of the pool, one per call, from the end:
    the pool that is left and the sources consumed make up the original pool,
    so that no entry is used twice (when the entries of the pool are pairwise
    distinct, so are the consumed sources, and none of them is left in the
    pool).  After as many calls as the pool had entries the pool is empty and
    the next call fails: [pop] raises [IndexError], the exception of every
    list, and changes nothing; the script has no error of its own for the
    exhausted pool. *)
Theorem factory_consumes_pool st (k : nat) :
  (k ≤ length (spendable_outputs st))%nat ->
  Forall has_output (spendable_outputs st) ->
  let pool := spendable_outputs st in
  let consumed := take k (reverse pool) in
  exists st',
    call_factory fw k st = (Normal (fixture_of fw <$> consumed), st') /\
    length (spendable_outputs st') = (length pool - k)%nat /\
    spendable_outputs st' ++ reverse consumed = pool /\
    fundings st' = fundings st ++ (funding_of fw <$> consumed) /\
    (NoDup pool ->
     NoDup consumed /\ forall x, x ∈ consumed -> x ∉ spendable_outputs st') /\
    (k = length pool ->
     spendable_outputs st' = [] /\
     create_fund_and_spend_tx fw st' = (Raised IndexError, st')).
Proof.
intros Hk Hall pool consumed.
eexists. split; [apply (call_factory_run fw k st Hk Hall)|]. simpl.
fold pool. fold consumed.
assert (Hsplit : take (length pool - k) pool ++ reverse consumed = pool)
  by (apply consumed_remaining; done).
split; [rewrite length_take; lia|].
split; [exact Hsplit|].
split; [reflexivity|].
split.
- intros Hnd. rewrite <- Hsplit in Hnd.
  apply NoDup_app in Hnd as (_ & Hdisj & Hc).
  rewrite reverse_Permutation in Hc.
  split; [exact Hc|]. intros x Hx Hx'.
  apply (Hdisj x Hx'). by apply elem_of_reverse.
- intros ->. rewrite Nat.sub_diag. simpl. split; [reflexivity|].
  by apply create_fund_and_spend_tx_empty.
Qed.

End FixtureTheorems.

Lemma fixture_unlocking_script_witness :
  exists txspend st' i,
    create_fund_and_spend_tx Reference.fw Reference.with_pool3 = (Normal txspend, st') /\
    vin txspend = [i] /\
    scriptSig i = [1; 1; OP_1] /\
    script_ops (scriptSig i) = Some [Push 1 [1]; Op OP_1] /\
    minimal_push (Push 1 [1]) = false /\
    minimal_number_push 1 = [OP_1] /\
    filter (fun op => minimal_push op = false) [Push 1 [1]; Op OP_1] = [Push 1 [1]].
Proof.
apply (fixture_unlocking_script Reference.fw reference_fw_laws Reference.with_pool3
         [Reference.coinbase 1 [OP_1]; Reference.coinbase 2 [OP_1]]
         (Reference.coinbase 3 [OP_1]) (mkTxOut 5000000000 [OP_1]) []);
  reflexivity.
Defined.

(** C6, as stated, fails: the unlocking script of a fixture is not one
    three-byte push of opcode, length byte and value byte; its third byte is
    the opcode OP_1, an operation of its own. *)
Lemma fixture_script_is_not_one_push :
  exists i,
    vin (fixture_of Reference.fw (Reference.coinbase 3 [OP_1])) = [i] /\
    script_ops (scriptSig i) = Some [Push 1 [1]; Op OP_1] /\
    ~ explicit_three_byte_push (scriptSig i).
Proof.
eexists. split; [reflexivity|]. split; [reflexivity|].
intros (opcode & len & value & E & _ & Hops).
simpl in E. injection E as <- <- <-. discriminate Hops.
Qed.

Lemma fixture_pays_value_minus_fee_witness :
  exists txspend txfund extra sig st',
    create_fund_and_spend_tx Reference.fw Reference.with_pool3 = (Normal txspend, st') /\
    spendable_outputs st' = [Reference.coinbase 1 [OP_1]; Reference.coinbase 2 [OP_1]] /\
    fundings st' = fundings Reference.with_pool3 ++ [txfund] /\
    txfund = pad_tx Reference.fw
               (create_transaction Reference.fw (Reference.coinbase 3 [OP_1]) 0 []
                  5000000000 [OP_ADD Reference.fw]) /\
    vout txspend = mkTxOut (5000000000 - 1000) [OP_TRUE Reference.fw] :: extra /\
    vin txspend = [mkTxIn (mkOutPoint (tx_sha256 Reference.fw txfund) 0) sig].
Proof.
apply (fixture_pays_value_minus_fee Reference.fw reference_fw_laws Reference.with_pool3
         [Reference.coinbase 1 [OP_1]; Reference.coinbase 2 [OP_1]]
         (Reference.coinbase 3 [OP_1]) (mkTxOut 5000000000 [OP_1]) []);
  reflexivity.
Defined.

Lemma factory_consumes_pool_witness :
  exists st',
    call_factory Reference.fw 3 Reference.with_pool3 =
      (Normal (fixture_of Reference.fw <$> reverse Reference.pool3), st') /\
    spendable_outputs st' = [] /\
    create_fund_and_spend_tx Reference.fw st' = (Raised IndexError, st').
Proof.
destruct (factory_consumes_pool Reference.fw Reference.with_pool3 3)
  as (st' & Hrun & _ & _ & _ & _ & Hlast).
- simpl. lia.
- repeat constructor; discriminate.
- exists st'. split; [exact Hrun|]. apply Hlast. reflexivity.
Defined.

(** C7, as stated, fails: the call on the exhausted pool does not fail with
    an error of its own.  The fourth call on a pool of three raises
    [IndexError], the exception of [pop] on an empty list, and the factory
    raises the same [IndexError] on a pool that is not empty, when the source
    it pops has no output. *)
Lemma exhausted_pool_raises_plain_IndexError :
  ((_ <- call_factory Reference.fw 3;;
    create_fund_and_spend_tx Reference.fw)%py Reference.with_pool3).1
    = Raised IndexError /\
  spendable_outputs (mkState ∅ [mkTx [] []] [] tt []) <> [] /\
  (create_fund_and_spend_tx Reference.fw (mkState ∅ [mkTx [] []] [] tt [])).1
    = Raised IndexError.
Proof.
split; [reflexivity|]. split; [discriminate|reflexivity].
Qed.

(** ** What a run does to the height registry and to the trace *)

Ltac stable_struct :=
  first
    [ apply stable_ret; apply _
    | apply stable_raise; apply _
    | apply stable_return; apply _
    | apply stable_bind_return; apply _
    | apply stable_bind; [ apply _ | | intros ? ]
    | apply stable_for_each; [ apply _ | intros ? ? ]
    | apply stable_comprehension; [ apply _ | intros ? ] ].

Section RunFacts.
Context {NS : Type} (fw : Framework) (node : Node NS).
Implicit Types st : TestState NS.

Lemma never_falls_through_bind {A B} (m : M NS A) (f : A -> M NS B) :
  (forall a, never_falls_through (f a)) -> never_falls_through (bind m f).
Proof.
intros Hf st b. unfold bind. destruct (m st) as [[a| |e] st1]; simpl; try done.
apply Hf.
Qed.

Lemma never_falls_through_return {B} (k : unit -> M NS B) :
  never_falls_through (bind return_ k).
Proof. intros st b. simpl. done. Qed.

(** *** The height registry *)

Lemma heights_any {A} (m : M NS A) :
  (forall st, block_heights (m st).2 = block_heights st) -> stable heights_grow m.
Proof. intros H st. unfold heights_grow. rewrite H. done. Qed.

Lemma heights_getbestblock : stable heights_grow (getbestblock fw node).
Proof. prim_stable_heights. Qed.

Lemma heights_setitem k h : stable (NS:=NS) heights_grow (block_heights_setitem k h).
Proof. prim_stable_heights. Qed.

Ltac heights_prim :=
  first
    [ apply heights_getbestblock | apply heights_setitem
    | apply heights_any; intros ?; unfold_prims; repeat case_match; reflexivity ].

Ltac heights_tac := repeat first [ stable_struct | heights_prim ].

Lemma heights_build_block parent txs nt :
  stable (NS:=NS) heights_grow (build_block fw parent txs nt).
Proof. unfold build_block. heights_tac. Qed.


(** *** The trace *)

Lemma emits_silent P {A} (m : M NS A) :
  (forall st, trace (m st).2 = trace st) -> stable (emits P) m.
Proof.
intros H st. exists []. split; [apply H|constructor].
Qed.

Lemma emits_log_info (P : Event -> Prop) msg :
  P (EvLog msg) -> stable (NS:=NS) (emits P) (log_info msg).
Proof. intros H. prim_stable_emits. Qed.

Lemma emits_node_generate (P : Event -> Prop) n :
  P (EvGenerate n) -> stable (emits P) (node_generate node n).
Proof. intros H. prim_stable_emits. Qed.

Lemma emits_node_setmocktime (P : Event -> Prop) t :
  P (EvSetMockTime t) -> stable (emits P) (node_setmocktime node t).
Proof. intros H. prim_stable_emits. Qed.

Lemma emits_node_getrawmempool (P : Event -> Prop) :
  (forall l, P (EvGetRawMempool l)) -> stable (emits P) (node_getrawmempool node).
Proof. intros H. prim_stable_emits. Qed.

Lemma emits_node_mediantime (P : Event -> Prop) :
  (forall t, P (EvMedianTime t)) -> stable (emits P) (node_mediantime node).
Proof. intros H. prim_stable_emits. Qed.

Lemma emits_bootstrap_p2p (P : Event -> Prop) :
  P EvBootstrapP2P -> stable (emits P) (bootstrap_p2p node).
Proof. intros H. prim_stable_emits. Qed.

Lemma emits_send_blocks_and_test (P : Event -> Prop) bs s b r :
  (forall v, P (EvSendBlocks bs v)) ->
  stable (emits P) (send_blocks_and_test node bs s b r).
Proof. intros H. prim_stable_emits. Qed.

Lemma emits_send_txs_and_test (P : Event -> Prop) txs s b r :
  (forall v, P (EvSendTxs txs v)) ->
  stable (emits P) (send_txs_and_test node txs s b r).
Proof. intros H. prim_stable_emits. Qed.

Lemma emits_assert_raises (P : Event -> Prop) c m tx :
  (forall a, P (EvSendRawTransaction tx a)) ->
  stable (emits P) (assert_raises_rpc_error_sendrawtransaction node c m tx).
Proof. intros H. prim_stable_emits. Qed.

End RunFacts.

(** The primitives that talk to nobody. *)
Ltac emits_silent_prim :=
  apply emits_silent; intros ?; unfold_prims; repeat case_match; reflexivity.

(** [side] proves that an event is in the set. *)
Ltac emits_tac side :=
  repeat first
    [ stable_struct
    | apply emits_log_info; side
    | apply emits_node_generate; side
    | apply emits_node_setmocktime; side
    | apply emits_node_getrawmempool; intros ?; side
    | apply emits_node_mediantime; intros ?; side
    | apply emits_bootstrap_p2p; side
    | apply emits_send_blocks_and_test; intros ?; side
    | apply emits_send_txs_and_test; intros ?; side
    | apply emits_assert_raises; intros ?; side
    | emits_silent_prim ].

Ltac unfold_phases :=
  unfold run_test, setup, fund_fixtures, preupgrade_tests, approach,
    timed_loop, activation_block, too_late, extend_chain, create_fund_and_spend_tx,
    build_block, check_for_no_ban_on_rejected_tx,
    check_for_ban_on_rejected_block.

(** ** What a passing step says about the node *)

Section StepFacts.
Context {NS : Type} (fw : Framework) (node : Node NS).
Implicit Types st : TestState NS.

Lemma verdict_agrees_success b r v :
  verdict_agrees true b r v = true -> v = Accepted.
Proof. destruct v; simpl; done. Qed.

Lemma verdict_agrees_ban reason v :
  verdict_agrees false true (Some reason) v = true -> v = RejectedWithBan reason.
Proof.
destruct v as [|r|r]; simpl; try done.
intros H. apply bool_decide_eq_true in H. by subst.
Qed.

Lemma verdict_agrees_no_ban reason v :
  verdict_agrees false false (Some reason) v = true -> v = RejectedNoBan reason.
Proof.
destruct v as [|r|r]; simpl; try done.
intros H. apply bool_decide_eq_true in H. by subst.
Qed.

Lemma log_info_run msg st : log_info msg st = (Normal tt, emit (EvLog msg) st).
Proof. reflexivity. Qed.

Lemma send_blocks_Normal_inv bs s b r st u st' :
  send_blocks_and_test node bs s b r st = (Normal u, st') ->
  exists v,
    (p2p_blocks node bs (node_st st)).1 = v /\
    verdict_agrees s b r v = true /\
    st' = emit (EvSendBlocks bs v)
            (set_node_st (p2p_blocks node bs (node_st st)).2 st).
Proof.
unfold send_blocks_and_test.
destruct (p2p_blocks node bs (node_st st)) as [v ns]. simpl.
destruct (verdict_agrees s b r v) eqn:E; [|discriminate].
intros [= <-]. eauto.
Qed.

Lemma send_txs_Normal_inv txs s b r st u st' :
  send_txs_and_test node txs s b r st = (Normal u, st') ->
  exists v,
    (p2p_txs node txs (node_st st)).1 = v /\
    verdict_agrees s b r v = true /\
    st' = emit (EvSendTxs txs v)
            (set_node_st (p2p_txs node txs (node_st st)).2 st).
Proof.
unfold send_txs_and_test.
destruct (p2p_txs node txs (node_st st)) as [v ns]. simpl.
destruct (verdict_agrees s b r v) eqn:E; [|discriminate].
intros [= <-]. eauto.
Qed.

Lemma assert_raises_Normal_inv code message tx st u st' :
  assert_raises_rpc_error_sendrawtransaction node code message tx st = (Normal u, st') ->
  (sendrawtransaction node tx (node_st st)).1 = inr (code, message) /\
  st' = emit (EvSendRawTransaction tx (inr (code, message)))
          (set_node_st (sendrawtransaction node tx (node_st st)).2 st).
Proof.
unfold assert_raises_rpc_error_sendrawtransaction.
destruct (sendrawtransaction node tx (node_st st)) as [[txid|[c m]] ns]; simpl;
  [discriminate|].
destruct (bool_decide (c = code)) eqn:Ec; simpl; [|discriminate].
destruct (bool_decide (m = message)) eqn:Em; simpl; [|discriminate].
apply bool_decide_eq_true in Ec, Em. subst. intros [= <-]. done.
Qed.

(** [mtp = node.mediantime; assert_equal(mtp, expected)] *)
Lemma mediantime_check_inv expected {A} (k : M NS A) st a st' :
  (mtp <- node_mediantime node;; assert_equal mtp expected;; k)%py st
    = (Normal a, st') ->
  mediantime node (node_st st) = expected /\
  k (emit (EvMedianTime expected) st) = (Normal a, st').
Proof.
unfold bind, node_mediantime, assert_equal. simpl.
destruct (bool_decide (mediantime node (node_st st) = expected)) eqn:E;
  simpl; [|discriminate].
apply bool_decide_eq_true in E. rewrite E. done.
Qed.

Lemma create_fund_and_spend_tx_Normal_inv st tx st' :
  create_fund_and_spend_tx fw st = (Normal tx, st') -> is_fixture fw tx.
Proof.
unfold create_fund_and_spend_tx. intros H.
apply bind_Normal_inv in H as (sp & st1 & _ & H).
apply bind_Normal_inv in H as (o & st2 & _ & H).
apply bind_Normal_inv in H as (u & st3 & _ & H).
injection H as <- _. by eexists _, _.
Qed.

Lemma fixture_shape (L : FrameworkLaws fw) tx :
  is_fixture fw tx ->
  tx_violates_minimaldata tx = true /\
  exists i, vin tx = [i] /\ scriptSig i = [1; 1; OP_1].
Proof.
intros (txfund & value & ->). unfold tx_violates_minimaldata.
rewrite (spend_tx_vin fw L). split; [reflexivity|]. eexists. done.
Qed.

Lemma fund_fixtures_Normal_inv tip st tip1 tx1 tx2 tx3 st' :
  fund_fixtures fw node tip st = (Normal (tip1, (tx1, tx2, tx3)), st') ->
  is_fixture fw tx1 /\ is_fixture fw tx2 /\ is_fixture fw tx3.
Proof.
unfold fund_fixtures. intros H.
apply bind_Normal_inv in H as (u1 & s1 & _ & H).
apply bind_Normal_inv in H as (u2 & s2 & _ & H).
apply bind_Normal_inv in H as (a1 & s3 & F1 & H).
apply bind_Normal_inv in H as (a2 & s4 & F2 & H).
apply bind_Normal_inv in H as (a3 & s5 & F3 & H).
apply bind_Normal_inv in H as (fs & s6 & _ & H).
apply bind_Normal_inv in H as (tp & s7 & _ & H).
apply bind_Normal_inv in H as (u3 & s8 & _ & H).
injection H as <- <- <- <- _.
repeat split; eapply create_fund_and_spend_tx_Normal_inv; eassumption.
Qed.

(** Lines 244-247, when they pass. *)
Lemma too_late_Normal_inv tip tx st u st' :
  too_late fw node tip tx st = (Normal u, st') ->
  exists h,
    block_heights st !! sha256 fw tip = Some h /\
    let B := assemble_block fw tip (h + 1) [tx] None in
    trace st' =
      EvSendBlocks [B] (RejectedWithBan BADSIGNATURE_ERROR)
      :: EvLog "Trying to mine a minimaldata violation, but we are just barely too late"
      :: trace st /\
    (p2p_blocks node [B] (node_st st)).1 = RejectedWithBan BADSIGNATURE_ERROR.
Proof.
unfold too_late. intros H.
apply bind_Normal_inv in H as (u1 & s1 & E1 & H).
rewrite log_info_run in E1. injection E1 as <- <-.
apply bind_Normal_inv in H as (B & s2 & E2 & H).
apply build_block_Normal_inv in E2 as (h & Hh & -> & ->).
unfold check_for_ban_on_rejected_block in H.
apply send_blocks_Normal_inv in H as (v & Ev & Hv & ->).
apply verdict_agrees_ban in Hv. subst v.
exists h. split; [exact Hh|]. simpl. rewrite <- Hv. split; [reflexivity|].
reflexivity.
Qed.

(** Lines 232-242, when they pass. *)
Lemma activation_block_Normal_inv tip tx st up st' :
  activation_block fw node tip tx st = (Normal up, st') ->
  exists h,
    block_heights st !! sha256 fw tip = Some h /\
    up = assemble_block fw tip (h + 1) [tx] None /\
    trace st' =
      EvMedianTime NOV2019_START_TIME
      :: EvLog "We have activated!"
      :: EvSendBlocks [up] Accepted
      :: EvLog "Mine the activation block itself, including a minimaldata violation at the last possible moment"
      :: trace st /\
    (p2p_blocks node [up] (node_st st)).1 = Accepted /\
    mediantime node (node_st st') = NOV2019_START_TIME.
Proof.
unfold activation_block. intros H.
apply bind_Normal_inv in H as (u1 & s1 & E1 & H).
rewrite log_info_run in E1. injection E1 as <- <-.
apply bind_Normal_inv in H as (B & s2 & E2 & H).
apply build_block_Normal_inv in E2 as (h & Hh & -> & ->).
apply bind_Normal_inv in H as (u2 & s3 & E3 & H).
apply send_blocks_Normal_inv in E3 as (v & Ev & Hv & ->).
apply verdict_agrees_success in Hv. subst v.
apply bind_Normal_inv in H as (u3 & s4 & E4 & H).
rewrite log_info_run in E4. injection E4 as <- <-.
apply mediantime_check_inv in H as (Hm & H).
injection H as <- <-.
exists h. split; [exact Hh|]. split; [reflexivity|].
simpl. rewrite <- Hv. split; [reflexivity|]. split; [reflexivity|].
exact Hm.
Qed.

End StepFacts.

Section Crossing.
Context {NS : Type} (fw : Framework) (node : Node NS).
Implicit Types st : TestState NS.

Lemma last_cons_default {A} (l : list A) (x d : A) :
  List.last (x :: l) d = List.last l x.
Proof.
revert x d. induction l as [|y l IH]; intros x d; [reflexivity|].
change (List.last (x :: y :: l) d) with (List.last (y :: l) d).
rewrite (IH y d), (IH y x). reflexivity.
Qed.


(** The loop succeeds as soon as its first parent is registered, touches
    neither the node nor the trace, and stamps the blocks as told. *)
Lemma timed_loop_run (l : list Z) : forall st tip blocks h,
  block_heights st !! sha256 fw tip = Some h ->
  exists r st',
    timed_loop fw l (tip, blocks) st = (Normal r, st') /\
    nTime <$> r.2 = (nTime <$> blocks) ++ ((fun i => NOV2019_START_TIME + i) <$> l) /\
    nTime r.1 = List.last ((fun i => NOV2019_START_TIME + i) <$> l) (nTime tip) /\
    is_Some (block_heights st' !! sha256 fw r.1) /\
    trace st' = trace st /\ node_st st' = node_st st.
Proof.
induction l as [|i l IH]; intros st tip blocks h Hh.
- eexists _, _. split; [reflexivity|]. simpl. rewrite app_nil_r. eauto.
- unfold timed_loop. cbn [for_each]. unfold extend_chain at 1.
  pose proof (build_block_registered fw st tip [] (Some (NOV2019_START_TIME + i)) h Hh) as Hb.
  simpl in Hb.
  set (B := assemble_block fw tip (h + 1) [] (Some (NOV2019_START_TIME + i))) in *.
  set (st1 := set_block_heights _ st) in *.
  destruct (IH st1 B (blocks ++ [B]) (h + 1)) as (r & st' & Hrun & Ht & Hl & Hreg & Htr & Hn).
  { subst st1. simpl. apply lookup_insert_eq. }
  exists r, st'. split.
  { unfold bind at 1. unfold bind at 1. cbn [fst snd]. rewrite Hb. exact Hrun. }
  split.
  { rewrite Ht, fmap_app. simpl. rewrite <- app_assoc. reflexivity. }
  split.
  { rewrite Hl. change ((fun i0 => NOV2019_START_TIME + i0) <$> i :: l)
      with ((NOV2019_START_TIME + i) :: ((fun i0 => NOV2019_START_TIME + i0) <$> l)).
    rewrite last_cons_default. reflexivity. }
  split; [exact Hreg|]. split; [exact Htr|exact Hn].
Qed.

Lemma timed_loop_Normal_inv (l : list Z) st tip blocks r st' :
  timed_loop fw l (tip, blocks) st = (Normal r, st') ->
  nTime <$> r.2 = (nTime <$> blocks) ++ ((fun i => NOV2019_START_TIME + i) <$> l) /\
  nTime r.1 = List.last ((fun i => NOV2019_START_TIME + i) <$> l) (nTime tip) /\
  trace st' = trace st /\ node_st st' = node_st st.
Proof.
destruct l as [|i l].
- intros [= <- <-]. simpl. rewrite app_nil_r. done.
- intros H.
  destruct (block_heights st !! sha256 fw tip) as [h|] eqn:Hh.
  + destruct (timed_loop_run (i :: l) st tip blocks h Hh)
      as (r0 & st0 & Hrun & Ht & Hl & _ & Htr & Hn).
    rewrite Hrun in H. injection H as <- <-. done.
  + unfold timed_loop in H. simpl in H. unfold extend_chain at 1 in H.
    simpl in H. unfold bind at 1 in H. unfold bind at 1 in H.
    rewrite (build_block_unregistered fw st tip [] _ Hh) in H. discriminate.
Qed.

(** Lines 217-230, when they pass. *)
Lemma approach_Normal_inv tip st pre st' :
  approach fw node tip st = (Normal pre, st') ->
  exists bs,
    trace st' =
      EvMedianTime (NOV2019_START_TIME - 1)
      :: EvSendBlocks bs Accepted
      :: EvSetMockTime NOV2019_START_TIME
      :: EvLog "Approach to just before upgrade activation"
      :: trace st /\
    nTime <$> bs = crossing_times /\
    nTime pre = NOV2019_START_TIME + 4 /\
    mediantime node (node_st st') = NOV2019_START_TIME - 1.
Proof.
unfold approach. intros H.
apply bind_Normal_inv in H as (u1 & s1 & E1 & H).
rewrite log_info_run in E1. injection E1 as <- <-.
apply bind_Normal_inv in H as (u2 & s2 & E2 & H).
injection E2 as <- <-.
apply bind_Normal_inv in H as (r & s3 & E3 & H).
apply timed_loop_Normal_inv in E3 as (Ht & Hl & Htr & Hn).
apply bind_Normal_inv in H as (u3 & s4 & E4 & H).
apply send_blocks_Normal_inv in E4 as (v & Ev & Hv & ->).
apply verdict_agrees_success in Hv. subst v.
apply mediantime_check_inv in H as (Hm & H).
injection H as <- <-.
exists r.2. simpl. rewrite <- Hv, Htr. simpl.
split; [reflexivity|]. split; [exact Ht|]. split; [exact Hl|exact Hm].
Qed.

End Crossing.

(** ** The scenario as a whole *)

Ltac not_trailing :=
  unfold trailing_log; intros [?|?]; discriminate.

Section RunTheorems.
Context {NS : Type} (fw : Framework) (node : Node NS).
Implicit Types st : TestState NS.

Lemma run_test_emits_no_trailing_log :
  stable (emits (fun e => ~ trailing_log e)) (run_test fw node).
Proof.
unfold_phases. emits_tac not_trailing.
Qed.

Lemma run_test_never_falls_through : never_falls_through (run_test fw node).
Proof.
unfold run_test.
repeat first
  [ apply never_falls_through_return
  | apply never_falls_through_bind; intros ? ].
Qed.

(** C1, amended. In a run that reaches the [return], the block whose
    acceptance moves the reported median time from the activation time minus
    one to the activation time (the block built on the last of the six
    timestamped blocks) embeds a fixture, is submitted on the peer channel,
    and was accepted: it is still under the rule from before the activation.
    The block rejected under the new rule is the one built on top of it. *)
Theorem boundary_block_is_accepted (L : FrameworkLaws fw) st st' :
  run_test fw node st = (Returned, st') ->
  exists up tx2 bs B e2 rest,
    trace st' =
      EvSendBlocks [B] (RejectedWithBan BADSIGNATURE_ERROR) :: e2
      :: EvMedianTime NOV2019_START_TIME
      :: EvLog "We have activated!"
      :: EvSendBlocks [up] Accepted
      :: EvLog "Mine the activation block itself, including a minimaldata violation at the last possible moment"
      :: EvMedianTime (NOV2019_START_TIME - 1)
      :: EvSendBlocks bs Accepted
      :: EvSetMockTime NOV2019_START_TIME
      :: EvLog "Approach to just before upgrade activation"
      :: rest /\
    hashPrevBlock B = sha256 fw up /\
    nTime <$> bs = crossing_times /\
    nTime up = NOV2019_START_TIME + 5 /\
    tx2 ∈ vtx up /\
    is_fixture fw tx2 /\
    tx_violates_minimaldata tx2 = true.
Proof.
intros H.
apply run_test_Returned_inv in H
  as (tip0 & st1 & tip1 & tx1 & tx2 & tx3 & st2 & tip2 & st3 & pre & st4 & up & st5
      & E1 & E2 & E3 & E4 & E5 & E6).
apply fund_fixtures_Normal_inv in E2 as (F1 & F2 & F3).
apply approach_Normal_inv in E4 as (bs & Htr4 & Hbs & Hpre & Hm4).
apply activation_block_Normal_inv in E5 as (h & Hh & Hup & Htr5 & Hv5 & Hm5).
apply too_late_Normal_inv in E6 as (h' & Hh' & Htr6 & Hv6).
eexists up, tx2, bs, _, _, _. split.
{ rewrite Htr6, Htr5, Htr4. reflexivity. }
split; [apply assemble_block_hashPrevBlock|].
split; [exact Hbs|]. split.
{ rewrite Hup, assemble_block_nTime, Hpre. lia. }
split.
{ rewrite Hup. apply assemble_block_embeds; [exact L|]. set_solver. }
split; [exact F2|]. by apply (fixture_shape fw L).
Qed.


(** C9. No run of [run_test] falls through the end of the function: it ends
    at the [return] of line 248 or with an exception before it.  Neither of
    the two log lines that open the statements below the [return] is ever
    emitted, and when the run returns, the last thing it did is the
    submission of the post-activation block: the RPC and peer re-checks and
    the final block are never executed. *)
Theorem statements_after_return_are_dead st :
  let r := run_test fw node st in
  (exists new, trace r.2 = new ++ trace st /\ Forall (fun e => ~ trailing_log e) new) /\
  match r.1 with
  | Normal _ => False
  | Returned =>
      exists B v rest,
        trace r.2 =
          EvSendBlocks [B] v
          :: EvLog "Trying to mine a minimaldata violation, but we are just barely too late"
          :: rest
  | Raised _ => True
  end.
Proof.
intros r. split; [apply run_test_emits_no_trailing_log|].
destruct r as [o st'] eqn:Hr. simpl. destruct o as [u| |e]; [| |exact I].
- exfalso. apply (run_test_never_falls_through st u).
  unfold r in Hr. by rewrite Hr.
- apply run_test_Returned_inv in Hr
    as (tip0 & st1 & tip1 & tx1 & tx2 & tx3 & st2 & tip2 & st3 & pre & st4 & up & st5
        & E1 & E2 & E3 & E4 & E5 & E6).
  apply too_late_Normal_inv in E6 as (h' & Hh' & Htr6 & Hv6).
  eexists _, _, _. exact Htr6.
Qed.

End RunTheorems.

(** The reference run passes. *)
Lemma reference_run_returns : (Reference.run false).1 = Returned.
Proof. vm_compute. reflexivity. Qed.

Lemma reference_run_eq :
  run_test Reference.fw (Reference.node false) (initial_state Reference.fresh)
    = (Returned, (Reference.run false).2).
Proof.
rewrite <- reference_run_returns. unfold Reference.run.
destruct (run_test _ _ _). reflexivity.
Qed.

(** ** Median time past across the crossing *)

Section MedianTimePast.





End MedianTimePast.




(** ** The scenario against the reference node *)

Lemma boundary_block_is_accepted_witness :
  exists up tx2 bs B e2 rest,
    trace (Reference.run false).2 =
      EvSendBlocks [B] (RejectedWithBan BADSIGNATURE_ERROR) :: e2
      :: EvMedianTime NOV2019_START_TIME
      :: EvLog "We have activated!"
      :: EvSendBlocks [up] Accepted
      :: EvLog "Mine the activation block itself, including a minimaldata violation at the last possible moment"
      :: EvMedianTime (NOV2019_START_TIME - 1)
      :: EvSendBlocks bs Accepted
      :: EvSetMockTime NOV2019_START_TIME
      :: EvLog "Approach to just before upgrade activation"
      :: rest /\
    hashPrevBlock B = sha256 Reference.fw up /\
    nTime <$> bs = crossing_times /\
    nTime up = NOV2019_START_TIME + 5 /\
    tx2 ∈ vtx up /\
    is_fixture Reference.fw tx2 /\
    tx_violates_minimaldata tx2 = true.
Proof.
apply (boundary_block_is_accepted Reference.fw (Reference.node false)
         reference_fw_laws (initial_state Reference.fresh)).
apply reference_run_eq.
Defined.

(** C1, as stated, fails: in the run against the reference node, which
    passes, the block that brings the median time past to the activation
    time embeds a fixture and is accepted; and against a node that applies
    the new rule to that block already, the scenario fails at its
    submission. *)
Lemma boundary_block_is_not_under_the_new_rule :
  (exists up e1 e2 rest,
     (Reference.run false).1 = Returned /\
     trace (Reference.run false).2 =
       e1 :: e2
       :: EvMedianTime NOV2019_START_TIME
       :: EvLog "We have activated!"
       :: EvSendBlocks [up] Accepted
       :: rest /\
     existsb tx_violates_minimaldata (vtx up) = true /\
     Accepted <> RejectedWithBan BADSIGNATURE_ERROR) /\
  (exists up rest,
     (Reference.run true).1 = Raised AssertionError /\
     trace (Reference.run true).2 =
       EvSendBlocks [up] (RejectedWithBan BADSIGNATURE_ERROR)
       :: EvLog "Mine the activation block itself, including a minimaldata violation at the last possible moment"
       :: rest).
Proof.
split.
- eexists _, _, _, _. split; [vm_compute; reflexivity|].
  split; [vm_compute; reflexivity|]. split; [vm_compute; reflexivity|discriminate].
- eexists _, _. split; [vm_compute; reflexivity|]. vm_compute. reflexivity.
Qed.


(** C3, evaluated. The run against the reference node passes.  It makes six
    standalone submissions, three on each channel, each rejected without a
    ban for the minimal-push reason, and finds the mempool empty; all six
    happen before the clock is moved to the activation time.  After that
    no transaction is submitted on its own any more: the re-checks of lines
    251-254 stand below the [return]. *)
Theorem standalone_submissions_stop_before_activation :
  let tr := trace (Reference.run false).2 in
  (Reference.run false).1 = Returned /\
  length (List.filter standalone_submission tr) = 6%nat /\
  forallb rejected_without_ban tr = true /\
  List.filter (fun e => bool_decide (e = EvGetRawMempool [])) tr = [EvGetRawMempool []] /\
  List.filter standalone_submission
    (since (EvLog "Approach to just before upgrade activation") tr) = [] /\
  List.filter standalone_submission (since (EvLog "We have activated!") tr) = [].
Proof.
repeat split; vm_compute; reflexivity.
Qed.

(** ** The height registry over a run *)



(** * Further properties of the script *)

(** ** Vocabulary *)

(** The blocks that repeated [tip = self.build_block(tip, nTime=...)] builds
    on a parent registered at height [h], one per timestamp argument. *)
Fixpoint chain_of (fw : Framework) (parent : CBlock) (h : Z)
    (args : list (option Z)) : list CBlock :=
  match args with
  | [] => []
  | a :: args' =>
      let b := assemble_block fw parent (h + 1) [] a in
      b :: chain_of fw b (h + 1) args'
  end.

(** The loops of lines 140-142 and 222-224, for any way [g] of choosing the
    timestamp argument of a round. *)
Definition chain_loop {NS X} (fw : Framework) (g : X -> option Z) (l : list X)
    (acc : CBlock * list CBlock) : M NS (CBlock * list CBlock) :=
  for_each (fun acc x => extend_chain fw (g x) acc) l acc.

(** The block is in the height registry. *)
Definition registered {NS} (fw : Framework) (b : CBlock) (st : TestState NS) : Prop :=
  is_Some (block_heights st !! sha256 fw b).

(** The objects of the script itself, as opposed to the node and the trace. *)
Definition books {NS} (st : TestState NS)
    : gmap Z Z * list CTransaction * list CTransaction :=
  (block_heights st, spendable_outputs st, fundings st).

(** A result that is no harness error: the piece fell through with a value
    in [Q], or an assertion failed. *)
Definition passes_or_asserts {NS A} (Q : A -> TestState NS -> Prop)
    (r : Outcome A * TestState NS) : Prop :=
  match r with
  | (Normal a, st') => Q a st'
  | (Returned, _) => False
  | (Raised e, _) => e = AssertionError
  end.

(** The result of a function body that ends at a [return] statement with
    the state in [Q], or by a failed assertion. *)
Definition returns_or_asserts {NS A} (Q : TestState NS -> Prop)
    (r : Outcome A * TestState NS) : Prop :=
  match r with
  | (Normal _, _) => False
  | (Returned, st') => Q st'
  | (Raised e, _) => e = AssertionError
  end.

(** A piece that only talks to the node or to the log: it leaves the books
    alone, and fails by assertion only. *)
Definition quiet {NS A} (m : M NS A) : Prop :=
  forall st, passes_or_asserts (fun _ st' => books st' = books st) (m st).

(** Every coinbase the imports make has an output. *)
Definition coinbase_has_output (fw : Framework) : Prop :=
  forall h script, vout (create_coinbase fw h script) <> [].

(** The kinds of interaction, without their payload. *)
Inductive EventKind : Type :=
  | KLog | KGenerate | KBootstrap | KSendBlocks | KSendTxs
  | KSendRawTransaction | KGetRawMempool | KSetMockTime | KMedianTime.

Definition kind_of (e : Event) : EventKind :=
  match e with
  | EvLog _ => KLog
  | EvGenerate _ => KGenerate
  | EvBootstrapP2P => KBootstrap
  | EvSendBlocks _ _ => KSendBlocks
  | EvSendTxs _ _ => KSendTxs
  | EvSendRawTransaction _ _ => KSendRawTransaction
  | EvGetRawMempool _ => KGetRawMempool
  | EvSetMockTime _ => KSetMockTime
  | EvMedianTime _ => KMedianTime
  end.

(** A piece that, when it falls through, has had exactly the interactions
    of the kinds [ks], in this order. *)
Definition emits_kinds {NS A} (ks : list EventKind) (m : M NS A) : Prop :=
  forall st a st',
    m st = (Normal a, st') ->
    kind_of <$> trace st' = reverse ks ++ (kind_of <$> trace st).


(** The blocks of a batch submitted on the peer channel. *)
Definition batch_of (e : Event) : list CBlock :=
  match e with
  | EvSendBlocks bs _ => bs
  | _ => []
  end.

(** The blocks submitted in a trace (newest first), oldest first. *)
Definition blocks_sent (tr : list Event) : list CBlock :=
  List.concat (batch_of <$> reverse tr).

(** A string without a blank. *)
Fixpoint no_space (s : string) : Prop :=
  match s with
  | EmptyString => True
  | String a s' => a <> Ascii.Space /\ no_space s'
  end.

(** ** The block builder, continued *)

Section ChainLoop.
Context {NS : Type} (fw : Framework).
Implicit Types st : TestState NS.

Lemma chain_of_length parent h args :
  length (chain_of fw parent h args) = length args.
Proof.
revert parent h. induction args as [|a args IH]; intros parent h; simpl;
  [reflexivity|]. by rewrite IH.
Qed.

Lemma chain_of_app parent h args1 args2 :
  chain_of fw parent h (args1 ++ args2) =
    chain_of fw parent h args1 ++
    chain_of fw (List.last (chain_of fw parent h args1) parent)
      (h + Z.of_nat (length args1)) args2.
Proof.
revert parent h. induction args1 as [|a args1 IH]; intros parent h.
- simpl. by rewrite Z.add_0_r.
- cbn [chain_of app length]. rewrite IH. f_equal.
  rewrite last_cons_default.
  replace (h + Z.of_nat (S (length args1))) with (h + 1 + Z.of_nat (length args1))
    by lia.
  reflexivity.
Qed.

(** The loop succeeds as soon as its first parent is registered; it changes
    nothing but the registry, where the last block ends up at the height of
    the first parent plus the number of rounds. *)
Lemma chain_loop_run {X} (g : X -> option Z) (l : list X) :
  forall st tip blocks h,
    block_heights st !! sha256 fw tip = Some h ->
    exists st',
      chain_loop fw g l (tip, blocks) st =
        (Normal (List.last (chain_of fw tip h (g <$> l)) tip,
                 blocks ++ chain_of fw tip h (g <$> l)), st') /\
      block_heights st' !! sha256 fw (List.last (chain_of fw tip h (g <$> l)) tip)
        = Some (h + Z.of_nat (length l)) /\
      dom (block_heights st) ⊆ dom (block_heights st') /\
      spendable_outputs st' = spendable_outputs st /\
      fundings st' = fundings st /\
      node_st st' = node_st st /\ trace st' = trace st.
Proof.
induction l as [|x l IH]; intros st tip blocks h Hh.
- exists st. cbn. rewrite app_nil_r, Z.add_0_r. done.
- unfold chain_loop. cbn [for_each]. unfold extend_chain at 1.
  pose proof (build_block_registered fw st tip [] (g x) h Hh) as Hb.
  cbn zeta in Hb.
  set (B := assemble_block fw tip (h + 1) [] (g x)) in *.
  set (st1 := set_block_heights _ st) in *.
  destruct (IH st1 B (blocks ++ [B]) (h + 1)) as (st' & Hrun & Hreg & Hdom & Hs & Hf & Hn & Ht).
  { subst st1. simpl. apply lookup_insert_eq. }
  exists st'. split.
  { unfold bind at 1. unfold bind at 1. cbn [fst snd]. rewrite Hb.
    unfold chain_loop in Hrun. cbn [ret]. rewrite Hrun.
    change (g <$> x :: l) with (g x :: (g <$> l)).
    cbn [chain_of]. fold B. rewrite last_cons_default, <- app_assoc.
    reflexivity. }
  change (g <$> x :: l) with (g x :: (g <$> l)).
  cbn [chain_of]. fold B. rewrite last_cons_default.
  split.
  { rewrite Hreg. f_equal. cbn [length]. lia. }
  split.
  { etransitivity; [|exact Hdom]. subst st1. simpl. rewrite dom_insert_L.
    set_solver. }
  done.
Qed.

(** Each block of a chain names its predecessor as parent. *)
Lemma chain_of_parents parent h args :
  hashPrevBlock <$> chain_of fw parent h args =
    take (length args) (sha256 fw <$> (parent :: chain_of fw parent h args)).
Proof.
revert parent h. induction args as [|a args IH]; intros parent h; [reflexivity|].
cbn [chain_of fmap list_fmap length take]. rewrite assemble_block_hashPrevBlock.
f_equal. apply IH.
Qed.

Lemma ctor_singleton (L : FrameworkLaws fw) tx :
  make_conform_to_ctor fw [tx] = [tx].
Proof. apply Permutation_singleton_r, (ctor_perm fw L). Qed.

(** The blocks of a chain hold their coinbase and nothing else; the
    coinbases are made for consecutive heights and pay to OP_TRUE. *)
Lemma chain_of_vtx (L : FrameworkLaws fw) parent h args :
  vtx <$> chain_of fw parent h args =
    (fun i => [create_coinbase fw (h + Z.of_nat i) [OP_TRUE fw]])
      <$> seq 1 (length args).
Proof.
revert parent h. induction args as [|a args IH]; intros parent h; [reflexivity|].
cbn [chain_of fmap list_fmap length seq]. rewrite assemble_block_vtx.
rewrite (ctor_singleton L). f_equal.
change (list_fmap _ _ ?f ?l) with (f <$> l).
rewrite <- (fmap_S_seq 1), IH, <- list_fmap_compose.
apply list_fmap_ext. intros _ i _. simpl.
replace (h + Z.of_nat (S i)) with (h + 1 + Z.of_nat i) by lia. reflexivity.
Qed.

(** Without a timestamp argument the timestamps go up by one per block. *)
Lemma chain_of_default_times parent h n :
  nTime <$> chain_of fw parent h (replicate n None) =
    (fun i => nTime parent + Z.of_nat i) <$> seq 1 n.
Proof.
revert parent h. induction n as [|n IH]; intros parent h; [reflexivity|].
cbn [replicate chain_of fmap list_fmap seq].
change (list_fmap _ _ ?f ?l) with (f <$> l).
rewrite assemble_block_nTime. f_equal.
rewrite <- (fmap_S_seq 1), IH, <- list_fmap_compose.
apply list_fmap_ext. intros _ i _. simpl. lia.
Qed.

End ChainLoop.

(** ** Pieces that fail by assertion only *)

Section Passes.
Context {NS : Type} (fw : Framework) (node : Node NS).
Implicit Types st : TestState NS.

Lemma poa_weaken {A} (Q Q' : A -> TestState NS -> Prop) r :
  passes_or_asserts Q r -> (forall a st, Q a st -> Q' a st) ->
  passes_or_asserts Q' r.
Proof. destruct r as [[a| |e] st]; simpl; auto. Qed.

Lemma poa_bind {A B} (m : M NS A) (f : A -> M NS B) st Q R :
  passes_or_asserts Q (m st) ->
  (forall a st', Q a st' -> passes_or_asserts R (f a st')) ->
  passes_or_asserts R (bind m f st).
Proof.
unfold bind. destruct (m st) as [[a| |e] st1]; simpl; auto.
Qed.

Lemma poa_bind_eq {A B} (m : M NS A) (f : A -> M NS B) st a st1 R :
  m st = (Normal a, st1) ->
  passes_or_asserts R (f a st1) ->
  passes_or_asserts R (bind m f st).
Proof. intros E. unfold bind. by rewrite E. Qed.

Lemma poa_bind_quiet {A B} (m : M NS A) (f : A -> M NS B) st R :
  quiet m ->
  (forall a st',
     block_heights st' = block_heights st ->
     spendable_outputs st' = spendable_outputs st ->
     fundings st' = fundings st ->
     passes_or_asserts R (f a st')) ->
  passes_or_asserts R (bind m f st).
Proof.
intros Hq Hf. apply (poa_bind _ _ _ _ _ (Hq st)).
intros a st' [= H1 H2 H3]. by apply Hf.
Qed.

Lemma poa_bind_build {B} parent txs nt (f : CBlock -> M NS B) st R h :
  block_heights st !! sha256 fw parent = Some h ->
  passes_or_asserts R
    (f (assemble_block fw parent (h + 1) txs nt)
       (set_block_heights
          (<[sha256 fw (assemble_block fw parent (h + 1) txs nt) := h + 1]>
             (block_heights st)) st)) ->
  passes_or_asserts R (bind (build_block fw parent txs nt) f st).
Proof.
intros Hh. apply poa_bind_eq. by apply build_block_registered.
Qed.

Lemma roa_bind {A B} (m : M NS A) (f : A -> M NS B) st Q R :
  passes_or_asserts Q (m st) ->
  (forall a st', Q a st' -> returns_or_asserts R (f a st')) ->
  returns_or_asserts R (bind m f st).
Proof.
unfold bind. destruct (m st) as [[a| |e] st1]; simpl; intros H Hf;
  [auto | destruct H | exact H].
Qed.

(** *** The quiet primitives *)

Ltac prim_quiet :=
  let st := fresh "st" in
  intros st; unfold_prims; repeat case_match; simplify_eq; simpl; done.

Lemma quiet_log_info msg : quiet (NS:=NS) (log_info msg).
Proof. prim_quiet. Qed.
Lemma quiet_node_generate n : quiet (node_generate node n).
Proof. prim_quiet. Qed.
Lemma quiet_node_setmocktime t : quiet (node_setmocktime node t).
Proof. prim_quiet. Qed.
Lemma quiet_node_getrawmempool : quiet (node_getrawmempool node).
Proof. prim_quiet. Qed.
Lemma quiet_node_mediantime : quiet (node_mediantime node).
Proof. prim_quiet. Qed.
Lemma quiet_bootstrap_p2p : quiet (bootstrap_p2p node).
Proof. prim_quiet. Qed.
Lemma quiet_send_blocks_and_test bs s b r :
  quiet (send_blocks_and_test node bs s b r).
Proof. prim_quiet. Qed.
Lemma quiet_send_txs_and_test txs s b r :
  quiet (send_txs_and_test node txs s b r).
Proof. prim_quiet. Qed.
Lemma quiet_assert_raises c m tx :
  quiet (assert_raises_rpc_error_sendrawtransaction node c m tx).
Proof. prim_quiet. Qed.
Lemma quiet_assert_equal {A} `{EqDecision A} (a b : A) :
  quiet (NS:=NS) (assert_equal a b).
Proof. prim_quiet. Qed.
Lemma quiet_check_for_no_ban_on_rejected_tx tx r :
  quiet (check_for_no_ban_on_rejected_tx node tx r).
Proof. prim_quiet. Qed.
Lemma quiet_check_for_ban_on_rejected_tx tx r :
  quiet (check_for_ban_on_rejected_tx node tx r).
Proof. prim_quiet. Qed.
Lemma quiet_check_for_ban_on_rejected_block b r :
  quiet (check_for_ban_on_rejected_block node b r).
Proof. prim_quiet. Qed.

End Passes.

Create HintDb script_quiet discriminated.
#[export] Hint Resolve quiet_log_info quiet_node_generate quiet_node_setmocktime
  quiet_node_getrawmempool quiet_node_mediantime quiet_bootstrap_p2p
  quiet_send_blocks_and_test quiet_send_txs_and_test quiet_assert_raises
  quiet_assert_equal quiet_check_for_no_ban_on_rejected_tx
  quiet_check_for_ban_on_rejected_tx quiet_check_for_ban_on_rejected_block
  : script_quiet.

(** One quiet statement of a sequence: the facts about the books move on to
    the state after it. *)
Ltac quiet_step :=
  let a := fresh "u" in
  let st' := fresh "st" in
  let H1 := fresh "Hh" in
  let H2 := fresh "Hs" in
  let H3 := fresh "Hf" in
  apply poa_bind_quiet; [ solve [ auto with script_quiet ] | ];
  intros a st' H1 H2 H3;
  repeat match goal with
         | H : _ |- _ =>
             tryif first [ constr_eq H H1 | constr_eq H H2 | constr_eq H H3 ]
             then fail
             else first [ rewrite <- H1 in H | rewrite <- H2 in H | rewrite <- H3 in H ]
         end;
  clear H1 H2 H3.

(** ** The phases, from any node *)

Section PhaseSpecs.
Context {NS : Type} (fw : Framework) (node : Node NS).
Implicit Types st : TestState NS.

(** The coinbase that [build_block] makes for a height. *)
Definition coinbase_at (h : Z) : CTransaction :=
  create_coinbase fw h (CScript_ops [OP_TRUE fw]).

(** The best block of the node, as [getbestblock] fetches it. *)
Definition best_block (ns : NS) : CBlock :=
  getblock node (getblockhash node (getblockcount node ns) ns) ns.

Lemma getbestblock_run st :
  getbestblock fw node st =
    (Normal (best_block (node_st st)),
     set_block_heights
       (<[sha256 fw (best_block (node_st st)) := getblockcount node (node_st st)]>
          (block_heights st)) st).
Proof. reflexivity. Qed.

Lemma comprehension_first_vtx (bs : list CBlock) : forall (cbs : list CTransaction) st,
  vtx <$> bs = (fun c => [c]) <$> cbs ->
  comprehension (fun block => first_elem (vtx block)) bs st = (Normal cbs, st).
Proof.
induction bs as [|b bs IH]; intros [|c cbs] st H; try discriminate.
- reflexivity.
- cbn in H. injection H as Hb Hbs. cbn [comprehension].
  unfold bind at 1. rewrite Hb. cbn [first_elem ret].
  unfold bind at 1. rewrite (IH cbs st Hbs). reflexivity.
Qed.

(** The state of the node when [setup] first asks for the best block. *)
Definition node_at_start (ns : NS) : NS :=
  (handshake node (generate node 1 ns)).2.

(** Lines 131-149 fail by assertion only.  When they pass, the tip they
    return is registered, and the pool holds the coinbases of the ten blocks
    built on the first best block, oldest first. *)
Lemma setup_spec (L : FrameworkLaws fw) st :
  passes_or_asserts
    (fun tip st1 =>
       registered fw tip st1 /\
       spendable_outputs st1 =
         (fun i => coinbase_at (getblockcount node (node_at_start (node_st st)) + Z.of_nat i))
           <$> seq 1 10)
    (setup fw node st).
Proof.
unfold setup.
apply (poa_bind_eq _ _ st tt
         (emit (EvGenerate 1) (set_node_st (generate node 1 (node_st st)) st)));
  [reflexivity|].
unfold bind at 1, bootstrap_p2p. cbn [node_st emit set_node_st].
unfold node_at_start.
destruct (handshake node (generate node 1 (node_st st))) as [connected ns].
destruct connected; [|reflexivity]. cbn [snd].
eapply poa_bind_eq; [apply getbestblock_run|].
cbn [node_st emit set_node_st].
set (tip := best_block ns). set (h := getblockcount node ns).
match goal with |- passes_or_asserts _ (_ ?s) => set (st2 := s) end.
assert (Hreg2 : block_heights st2 !! sha256 fw tip = Some h)
  by apply lookup_insert_eq.
clearbody st2.
quiet_step.
change (for_each _ (py_range 0 10) (tip, []))
  with (chain_loop (NS:=NS) fw (fun _ : Z => None) (py_range 0 10) (tip, [])).
destruct (chain_loop_run fw (fun _ : Z => None) (py_range 0 10) _ tip [] h Hreg2)
  as (st3 & Hrun & _).
eapply poa_bind_eq; [exact Hrun|]. cbn [fst snd app]. clear Hrun.
quiet_step.
eapply poa_bind_eq.
{ apply (comprehension_first_vtx _ ((fun i => coinbase_at (h + Z.of_nat i)) <$> seq 1 10)).
  rewrite (chain_of_vtx fw L). reflexivity. }
eapply poa_bind_eq; [reflexivity|].
match goal with |- passes_or_asserts _ (_ ?s) => set (st4 := s) end.
assert (Hs4 : spendable_outputs st4 =
              (fun i => coinbase_at (h + Z.of_nat i)) <$> seq 1 10) by reflexivity.
clearbody st4.
quiet_step. quiet_step.
rewrite getbestblock_run. cbn [passes_or_asserts]. split.
- unfold registered. cbn. rewrite lookup_insert_eq. eauto.
- exact Hs4.
Qed.

(** Lines 151-188 on a pool whose last three sources have an output. *)
Lemma fund_fixtures_spec tip st h rest x3 x2 x1 :
  block_heights st !! sha256 fw tip = Some h ->
  spendable_outputs st = rest ++ [x3; x2; x1] ->
  has_output x1 -> has_output x2 -> has_output x3 ->
  passes_or_asserts
    (fun r st' =>
       r = (assemble_block fw tip (h + 1)
              [funding_of fw x1; funding_of fw x2; funding_of fw x3] None,
            (fixture_of fw x1, fixture_of fw x2, fixture_of fw x3)) /\
       block_heights st' !! sha256 fw r.1 = Some (h + 1) /\
       spendable_outputs st' = rest /\
       fundings st' = [funding_of fw x1; funding_of fw x2; funding_of fw x3])
    (fund_fixtures fw node tip st).
Proof.
intros Hh Hpool H1 H2 H3. unfold fund_fixtures.
quiet_step.
eapply poa_bind_eq; [reflexivity|].
eapply poa_bind_eq.
{ apply (create_fund_and_spend_tx_run fw _ (rest ++ [x3; x2]) x1); [|exact H1].
  cbn. rewrite Hpool, <- app_assoc. reflexivity. }
eapply poa_bind_eq.
{ apply (create_fund_and_spend_tx_run fw _ (rest ++ [x3]) x2); [|exact H2].
  cbn. rewrite <- app_assoc. reflexivity. }
eapply poa_bind_eq.
{ apply (create_fund_and_spend_tx_run fw _ rest x3); [|exact H3]. reflexivity. }
eapply poa_bind_eq; [reflexivity|]. cbn [fundings set_fundings set_spendable_outputs app].
eapply poa_bind_build; [exact Hh|].
match goal with |- passes_or_asserts _ (_ ?s) => set (stB := s) end.
assert (Hr4 : block_heights stB !!
                sha256 fw (assemble_block fw tip (h + 1)
                  [funding_of fw x1; funding_of fw x2; funding_of fw x3] None)
              = Some (h + 1)) by apply lookup_insert_eq.
assert (Hs4 : spendable_outputs stB = rest) by reflexivity.
assert (Hf4 : fundings stB = [funding_of fw x1; funding_of fw x2; funding_of fw x3])
  by reflexivity.
clearbody stB.
quiet_step. cbn. done.
Qed.

(** Lines 190-213 on a registered tip. *)
Lemma preupgrade_tests_spec tip tx1 tx2 tx3 st h pool fs :
  block_heights st !! sha256 fw tip = Some h ->
  spendable_outputs st = pool -> fundings st = fs ->
  passes_or_asserts
    (fun tip2 st' =>
       tip2 = assemble_block fw tip (h + 1) [tx1] None /\
       block_heights st' !! sha256 fw tip2 = Some (h + 1) /\
       spendable_outputs st' = pool /\ fundings st' = fs)
    (preupgrade_tests fw node tip tx1 tx2 tx3 st).
Proof.
intros Hh Hs Hf. unfold preupgrade_tests.
do 12 quiet_step.
eapply poa_bind_build; [exact Hh|].
match goal with |- passes_or_asserts _ (_ ?s) => set (stB := s) end.
assert (Hr4 : block_heights stB !!
                sha256 fw (assemble_block fw tip (h + 1) [tx1] None) = Some (h + 1))
  by apply lookup_insert_eq.
assert (Hs4 : spendable_outputs stB = pool) by exact Hs.
assert (Hf4 : fundings stB = fs) by exact Hf.
clearbody stB.
quiet_step. cbn. done.
Qed.

(** Lines 217-230 on a registered tip. *)
Lemma approach_spec tip st h pool fs :
  block_heights st !! sha256 fw tip = Some h ->
  spendable_outputs st = pool -> fundings st = fs ->
  passes_or_asserts
    (fun pre st' =>
       block_heights st' !! sha256 fw pre = Some (h + 6) /\
       spendable_outputs st' = pool /\ fundings st' = fs)
    (approach fw node tip st).
Proof.
intros Hh Hs Hf. unfold approach.
do 2 quiet_step.
change (timed_loop fw (py_range (-1) 5) (tip, []))
  with (chain_loop (NS:=NS) fw (fun i : Z => Some (NOV2019_START_TIME + i))
          (py_range (-1) 5) (tip, [])).
destruct (chain_loop_run fw (fun i : Z => Some (NOV2019_START_TIME + i))
            (py_range (-1) 5) _ tip [] h Hh)
  as (st3 & Hrun & Hreg & _ & Hs3 & Hf3 & _).
eapply poa_bind_eq; [exact Hrun|]. cbn [fst snd app]. clear Hrun.
rewrite Hs in Hs3. rewrite Hf in Hf3. clear Hh Hs Hf.
quiet_step. quiet_step. quiet_step. cbn. done.
Qed.

(** Lines 232-242 on a registered tip. *)
Lemma activation_block_spec tip tx st h pool fs :
  block_heights st !! sha256 fw tip = Some h ->
  spendable_outputs st = pool -> fundings st = fs ->
  passes_or_asserts
    (fun up st' =>
       block_heights st' !! sha256 fw up = Some (h + 1) /\
       spendable_outputs st' = pool /\ fundings st' = fs)
    (activation_block fw node tip tx st).
Proof.
intros Hh Hs Hf. unfold activation_block.
quiet_step.
eapply poa_bind_build; [exact Hh|].
match goal with |- passes_or_asserts _ (_ ?s) => set (stB := s) end.
assert (Hr4 : block_heights stB !!
                sha256 fw (assemble_block fw tip (h + 1) [tx] None) = Some (h + 1))
  by apply lookup_insert_eq.
assert (Hs4 : spendable_outputs stB = pool) by exact Hs.
assert (Hf4 : fundings stB = fs) by exact Hf.
clearbody stB.
do 4 quiet_step. cbn. done.
Qed.

(** Lines 244-247 on a registered tip. *)
Lemma too_late_spec tip tx st h pool fs :
  block_heights st !! sha256 fw tip = Some h ->
  spendable_outputs st = pool -> fundings st = fs ->
  passes_or_asserts
    (fun _ st' => spendable_outputs st' = pool /\ fundings st' = fs)
    (too_late fw node tip tx st).
Proof.
intros Hh Hs Hf. unfold too_late.
quiet_step.
eapply poa_bind_build; [exact Hh|].
match goal with |- passes_or_asserts _ (_ ?s) => set (stB := s) end.
assert (Hs4 : spendable_outputs stB = pool) by exact Hs.
assert (Hf4 : fundings stB = fs) by exact Hf.
clearbody stB.
apply (poa_weaken _ _ _ (quiet_check_for_ban_on_rejected_block node _ _ stB)).
intros _ st' [= _ H2 H3]. by rewrite H2, H3.
Qed.

(** [run_test] as a whole: from any state and against any node it ends at
    its [return] or by a failed assertion, and at the [return] the pool
    holds the coinbases of the first seven of the ten blocks, while the
    fundings are those made from the tenth, ninth and eighth. *)
Lemma run_test_spec (L : FrameworkLaws fw) (Hcb : coinbase_has_output fw) st :
  let cb := fun i : nat =>
    coinbase_at (getblockcount node (node_at_start (node_st st)) + Z.of_nat i) in
  returns_or_asserts
    (fun st' =>
       spendable_outputs st' = cb <$> seq 1 7 /\
       fundings st' = funding_of fw <$> [cb 10%nat; cb 9%nat; cb 8%nat])
    (run_test fw node st).
Proof.
intros cb. unfold run_test.
eapply roa_bind; [apply (setup_spec L)|].
intros tip st1 [[h Hh] Hs]. fold cb in Hs.
change (cb <$> seq 1 10)
  with ((cb <$> seq 1 7) ++ [cb 8%nat; cb 9%nat; cb 10%nat]) in Hs.
eapply roa_bind.
{ apply (fund_fixtures_spec tip st1 h (cb <$> seq 1 7)
           (cb 8%nat) (cb 9%nat) (cb 10%nat) Hh Hs);
    unfold has_output, cb, coinbase_at; apply Hcb. }
intros r st2 (-> & Hr & Hs2 & Hf2). cbn [fst snd] in *.
eapply roa_bind; [apply (preupgrade_tests_spec _ _ _ _ _ _ _ _ Hr Hs2 Hf2)|].
intros tip2 st3 (_ & Hr3 & Hs3 & Hf3).
eapply roa_bind; [apply (approach_spec _ _ _ _ _ Hr3 Hs3 Hf3)|].
intros pre st4 (Hr4 & Hs4 & Hf4).
eapply roa_bind; [apply (activation_block_spec _ _ _ _ _ _ Hr4 Hs4 Hf4)|].
intros up st5 (Hr5 & Hs5 & Hf5).
eapply roa_bind; [apply (too_late_spec _ _ _ _ _ _ Hr5 Hs5 Hf5)|].
intros _ st6 (Hs6 & Hf6). cbn. done.
Qed.

End PhaseSpecs.

(** ** The interactions of a passing piece, by kind *)

Section Kinds.
Context {NS : Type} (fw : Framework) (node : Node NS).
Implicit Types st : TestState NS.




Lemma ek_raise {A} e : emits_kinds (NS:=NS) [] (raise (A:=A) e).
Proof. intros st b st' [=]. Qed.





End Kinds.




Section RunKinds.
Context {NS : Type} (fw : Framework) (node : Node NS).
Implicit Types st : TestState NS.










End RunKinds.

(** ** [rpc_error] *)

Section RpcError.

Lemma string_app_length (s t : string) :
  String.length (s +:+ t) = (String.length s + String.length t)%nat.
Proof. induction s as [|a s IH]; simpl; [reflexivity|]. by rewrite IH. Qed.

Lemma string_app_assoc (s t u : string) : (s +:+ t) +:+ u = s +:+ t +:+ u.
Proof.
induction s as [|a s IH]; [reflexivity|].
change (String a ((s +:+ t) +:+ u) = String a (s +:+ t +:+ u)). by f_equal.
Qed.

Lemma string_prefix_app (s t : string) : String.prefix s (s +:+ t) = true.
Proof.
induction s as [|a s IH]; simpl; [by destruct t|].
destruct (Ascii.ascii_dec a a); [exact IH|done].
Qed.

Lemma string_app_inj_r (s s' t : string) : s +:+ t = s' +:+ t -> s = s'.
Proof.
revert s'. induction s as [|a s IH]; intros [|a' s'] H; simpl in H.
- reflexivity.
- apply (f_equal String.length) in H.
  rewrite ?string_app_length in H. simpl in H.
  rewrite ?string_app_length in H. lia.
- apply (f_equal String.length) in H.
  rewrite ?string_app_length in H. simpl in H.
  rewrite ?string_app_length in H. lia.
- injection H as -> H. f_equal. by apply IH.
Qed.

Lemma no_space_app (s t : string) : no_space (s +:+ t) <-> no_space s /\ no_space t.
Proof. induction s as [|a s IH]; simpl; [tauto|]. rewrite IH. tauto. Qed.

Lemma no_space_pretty_N_go (x : N) : forall s, no_space s -> no_space (pretty_N_go x s).
Proof.
induction (N.lt_wf_0 x) as [x _ IH]. intros s Hs.
destruct (decide (x = 0)%N) as [->|Hx].
- by rewrite pretty_N_go_0.
- rewrite pretty_N_go_step by lia. apply IH.
  + apply N.div_lt; lia.
  + split; [|exact Hs]. unfold pretty_N_char. repeat case_match; discriminate.
Qed.

Lemma no_space_pretty_Z (x : Z) : no_space (pretty x).
Proof.
assert (HN : forall n : N, no_space (pretty n)).
{ intros n. unfold pretty, pretty_N. case_decide; [simpl; split; [discriminate|done]|].
  by apply no_space_pretty_N_go. }
destruct x as [|p|p]; unfold pretty, pretty_Z.
- simpl. split; [discriminate|done].
- apply HN.
- simpl. split; [discriminate|]. apply HN.
Qed.

(** The part after the last blank determines the split. *)
Lemma split_at_last_space (r r' p p' : string) :
  no_space p -> no_space p' ->
  r +:+ " " +:+ p = r' +:+ " " +:+ p' -> r = r' /\ p = p'.
Proof.
assert (Hnil : forall s : string, "" +:+ s = s) by reflexivity.
assert (Hcons : forall a (s t : string), String a s +:+ t = String a (s +:+ t))
  by reflexivity.
intros Hp Hp'. revert r'. induction r as [|a r IH]; intros [|a' r'] H;
  repeat (rewrite ?Hnil, ?Hcons in H; progress rewrite ?Hnil, ?Hcons in H).
- by injection H as ->.
- injection H as <- ->. apply no_space_app in Hp as [_ Hp].
  rewrite ?Hcons, ?Hnil in Hp. destruct Hp as [Hne _]. by destruct Hne.
- injection H as -> <-. apply no_space_app in Hp' as [_ Hp'].
  rewrite ?Hcons, ?Hnil in Hp'. destruct Hp' as [Hne _]. by destruct Hne.
- injection H as -> H. destruct (IH r' H) as [-> ->]. done.
Qed.

Lemma rpc_error_bytes (code : Z) (b : string) :
  utf8_valid b = true ->
  rpc_error code (PyBytes b)
    = inr ((b +:+ " (code") +:+ " " +:+ (pretty code +:+ ")")).
Proof.
intros Hb. unfold rpc_error, decode. rewrite Hb. f_equal.
etransitivity; [|symmetry; apply string_app_assoc].
reflexivity.
Qed.

Lemma rpc_error_inr_inv (code : Z) (reason : PyText) (msg : string) :
  rpc_error code reason = inr msg ->
  exists b, reason = PyBytes b /\ utf8_valid b = true.
Proof.
unfold rpc_error, decode. destruct reason as [s|b]; [discriminate|].
destruct (utf8_valid b) eqn:Hb; [|discriminate]. intros _. by exists b.
Qed.

(** Bytes below 128 are well-formed UTF-8. *)
Lemma utf8_valid_ascii (b : string) :
  Forall (byte_in 0 127) (String.list_ascii_of_string b) -> utf8_valid b = true.
Proof.
induction b as [|a b IH]; [reflexivity|]. cbn [String.list_ascii_of_string].
intros H. apply Forall_cons in H as [Ha Hb]. cbn [utf8_valid].
apply Is_true_true in Ha. rewrite Ha. by apply IH.
Qed.

(** Well-formed sequences of two, three and four bytes, at the ends of
    their ranges. *)
Lemma utf8_valid_accepts :
  Forall (fun bytes =>
            utf8_valid (String.string_of_list_ascii (Ascii.ascii_of_N <$> bytes))
              = true)
    [[194; 128]; [223; 191]; [224; 160; 128]; [226; 130; 172]; [237; 159; 191];
     [238; 128; 128]; [239; 191; 191]; [240; 144; 128; 128];
     [244; 143; 191; 191]; [104; 195; 169; 33]]%N.
Proof. repeat constructor. Qed.

(** Ill-formed sequences: a lone continuation byte, an overlong form, a cut
    sequence, a surrogate, a code point above U+10FFFF. *)
Lemma utf8_valid_rejects :
  Forall (fun bytes =>
            utf8_valid (String.string_of_list_ascii (Ascii.ascii_of_N <$> bytes))
              = false)
    [[128]; [192; 128]; [193; 191]; [194]; [194; 65]; [224; 159; 191];
     [226; 130]; [237; 160; 128]; [240; 143; 191; 191]; [244; 144; 128; 128];
     [245; 128; 128; 128]; [104; 105; 255]]%N.
Proof. repeat constructor. Qed.

End RpcError.

(** X5. [rpc_error] returns a message only for a reason that is a [bytes]
    object holding well-formed UTF-8: on a [str] the call of [decode] raises
    [AttributeError], on other bytes [UnicodeDecodeError].  A message that is
    returned has the decoded reason as a prefix, is never the bare reason,
    and determines both the code and the reason. *)
Theorem rpc_error_extends_reason (code : Z) (reason : PyText) :
  match rpc_error code reason with
  | inr msg =>
      (exists b, reason = PyBytes b /\ utf8_valid b = true /\
         String.prefix b msg = true /\ msg <> b) /\
      (forall code' reason',
         rpc_error code' reason' = inr msg -> code' = code /\ reason' = reason)
  | inl AttributeError => exists s, reason = PyStr s
  | inl UnicodeDecodeError => exists b, reason = PyBytes b /\ utf8_valid b = false
  end.
Proof.
destruct reason as [s|b]; [by exists s|].
destruct (utf8_valid b) eqn:Hb.
- rewrite (rpc_error_bytes code b Hb). split.
  + exists b. split; [reflexivity|]. split; [exact Hb|].
    rewrite string_app_assoc. split; [apply string_prefix_app|].
    intros H. apply (f_equal String.length) in H.
    rewrite !string_app_length in H. simpl in H. lia.
  + intros code' reason' H.
    destruct (rpc_error_inr_inv _ _ _ H) as (b' & -> & Hb').
    rewrite (rpc_error_bytes code' b' Hb') in H. injection H as H.
    apply split_at_last_space in H as [Hr Hp].
    * apply string_app_inj_r in Hr, Hp. split; [|by rewrite Hr].
      by apply (inj pretty).
    * apply no_space_app. split; [apply no_space_pretty_Z|].
      split; [discriminate|exact I].
    * apply no_space_app. split; [apply no_space_pretty_Z|].
      split; [discriminate|exact I].
- unfold rpc_error, decode. rewrite Hb. by exists b.
Qed.

(** Closes the cases of a statement about verdicts and outcomes. *)
Ltac verdict_cases :=
  repeat match goal with
         | |- _ /\ _ => split
         | |- _ <-> _ => split
         end;
  lazymatch goal with
  | |- _ \/ _ => first [ left; reflexivity | right; reflexivity ]
  | |- ~ _ => intros [? ?]; congruence
  | |- (exists _, _) -> _ => first [ intros _; reflexivity | intros [? ?]; congruence ]
  | |- _ -> exists _, _ => first [ intros ?; congruence | intros _; eexists; reflexivity ]
  | |- _ -> _ => first [ intros _; reflexivity | intros ?; congruence ]
  end.

Section MoreTheorems.
Context {NS : Type} (fw : Framework) (node : Node NS).
Implicit Types st : TestState NS.


Lemma const_None_fmap (l : list Z) :
  (fun _ : Z => @None Z) <$> l = replicate (length l) None.
Proof. induction l as [|x l IH]; [reflexivity|]. cbn. by rewrite <- IH. Qed.

(** X2. The loop of lines 140-142, run for [n] rounds on a registered tip,
    succeeds and returns [n] blocks that form a chain on the tip: each names
    its predecessor as parent, the timestamps go up by one from the tip's,
    each block holds only its coinbase, made for the next height and paying
    to OP_TRUE, and the last block is registered [n] above the tip.  The
    loop touches neither the node nor the trace. *)
Theorem default_chain_is_linked (L : FrameworkLaws fw) st (tip : CBlock)
    (h : Z) (n : nat) :
  block_heights st !! sha256 fw tip = Some h ->
  exists r st',
    for_each (fun acc (_ : Z) => extend_chain fw None acc)
      (py_range 0 (Z.of_nat n)) (tip, []) st = (Normal r, st') /\
    length r.2 = n /\
    r.1 = List.last r.2 tip /\
    hashPrevBlock <$> r.2 = take n (sha256 fw <$> (tip :: r.2)) /\
    nTime <$> r.2 = (fun i => nTime tip + Z.of_nat i) <$> seq 1 n /\
    vtx <$> r.2 = (fun i => [coinbase_at fw (h + Z.of_nat i)]) <$> seq 1 n /\
    block_heights st' !! sha256 fw r.1 = Some (h + Z.of_nat n) /\
    node_st st' = node_st st /\ trace st' = trace st.
Proof.
intros Hh.
assert (Hlen : length (py_range 0 (Z.of_nat n)) = n).
{ unfold py_range. rewrite length_seqZ. lia. }
destruct (chain_loop_run fw (fun _ : Z => None) (py_range 0 (Z.of_nat n)) st tip [] h Hh)
  as (st' & Hrun & Hreg & _ & _ & _ & Hn & Ht).
rewrite const_None_fmap, Hlen in Hrun, Hreg.
eexists _, st'. split; [exact Hrun|]. cbn [fst snd app].
split; [by rewrite chain_of_length, length_replicate|].
split; [reflexivity|].
split.
{ rewrite chain_of_parents, length_replicate. reflexivity. }
split; [apply chain_of_default_times|].
split.
{ rewrite (chain_of_vtx fw L), length_replicate. reflexivity. }
done.
Qed.

(** X3. On a registered parent [build_block] returns a block that holds the
    coinbase for the next height and the given transactions, and nothing
    else; its merkle root is the root of its transactions in their final
    order, and its timestamp is the one asked for, or the parent's plus one. *)
Theorem built_block_holds_coinbase_and_transactions (L : FrameworkLaws fw) st
    (parent : CBlock) (txs : list CTransaction) (nt : option Z) (h : Z) :
  block_heights st !! sha256 fw parent = Some h ->
  exists B st',
    build_block fw parent txs nt st = (Normal B, st') /\
    vtx B ≡ₚ coinbase_at fw (h + 1) :: txs /\
    hashMerkleRoot B = calc_merkle_root fw (vtx B) /\
    nTime B = default (nTime parent + 1) nt /\
    spendable_outputs st' = spendable_outputs st /\
    fundings st' = fundings st.
Proof.
intros Hh. eexists _, _.
split; [apply (build_block_registered fw st parent txs nt h Hh)|].
split; [rewrite assemble_block_vtx; apply (ctor_perm fw L)|].
split; [reflexivity|]. split; [by destruct nt|]. done.
Qed.

(** X4. The checks on a rejected transaction read the verdict of the peer
    channel: the no-ban check passes exactly when the transaction was
    rejected without a ban for the given reason, the ban check exactly when
    it was rejected with a ban (for the given reason, if one is given).  So
    the two never pass on the same transaction, neither passes when the node
    accepts it, and a check that does not pass fails by assertion. *)
Theorem tx_checks_read_the_verdict st (tx : CTransaction) (reason reason' : string) :
  let v := (p2p_txs node [tx] (node_st st)).1 in
  let no_ban := (check_for_no_ban_on_rejected_tx node tx reason st).1 in
  let ban := (check_for_ban_on_rejected_tx node tx (Some reason') st).1 in
  let any_ban := (check_for_ban_on_rejected_tx node tx None st).1 in
  (no_ban = Normal tt <-> v = RejectedNoBan reason) /\
  (ban = Normal tt <-> v = RejectedWithBan reason') /\
  (any_ban = Normal tt <-> exists r, v = RejectedWithBan r) /\
  ~ (no_ban = Normal tt /\ any_ban = Normal tt) /\
  (no_ban = Normal tt \/ no_ban = Raised AssertionError) /\
  (ban = Normal tt \/ ban = Raised AssertionError).
Proof.
unfold check_for_no_ban_on_rejected_tx, check_for_ban_on_rejected_tx,
  send_txs_and_test.
destruct (p2p_txs node [tx] (node_st st)) as [v ns]. cbn [fst].
destruct v as [|r|r]; cbn [verdict_agrees reason_agrees negb andb fst].
- verdict_cases.
- destruct (decide (reason = r)) as [->|Hne];
    [rewrite bool_decide_eq_true_2 by done|rewrite bool_decide_eq_false_2 by done];
    cbn [fst]; verdict_cases.
- destruct (decide (reason' = r)) as [->|Hne];
    [rewrite bool_decide_eq_true_2 by done|rewrite bool_decide_eq_false_2 by done];
    cbn [fst]; verdict_cases.
Qed.

(** X6. The statements below the [return] of line 248 could not do what
    they are written for: from any state and against any node they stop at
    the call of [rpc_error] with [TypeError], right after their first log
    line, before anything is submitted to the node. *)
Theorem after_return_raises_TypeError st (tip : CBlock) (tx : CTransaction) :
  after_return fw node tip tx st =
    (Raised TypeError,
     emit (EvLog "If we try to submit it by mempool or RPC we still aren't banned") st) /\
  node_st (after_return fw node tip tx st).2 = node_st st /\
  List.filter standalone_submission (trace (after_return fw node tip tx st).2)
    = List.filter standalone_submission (trace st).
Proof. done. Qed.

(** X7. Against any node and from any state, [run_test] ends at its
    [return] or by a failed assertion: it never stops on an unregistered
    parent ([KeyError]), on an empty pool or a missing output ([IndexError]),
    or in the statements below the [return]. *)
Theorem run_test_fails_only_by_assertion (L : FrameworkLaws fw)
    (Hcb : coinbase_has_output fw) st :
  (run_test fw node st).1 = Returned \/
  (run_test fw node st).1 = Raised AssertionError.
Proof.
pose proof (run_test_spec fw node L Hcb st) as H. cbn zeta in H.
destruct (run_test fw node st) as [[u| |e] st']; simpl in *;
  [done|by left|right; by subst].
Qed.

(** X8. In a run that reaches the [return], ten sources were made and
    three were used: the pool is left with the coinbases of the first seven
    of the ten blocks built in the setup, and [fundings] holds the funding
    transactions made from the tenth, the ninth and the eighth, in this
    order. *)
Theorem run_test_uses_three_of_ten_sources (L : FrameworkLaws fw)
    (Hcb : coinbase_has_output fw) st st' :
  run_test fw node st = (Returned, st') ->
  let cb := fun i : nat =>
    coinbase_at fw (getblockcount node (node_at_start node (node_st st)) + Z.of_nat i) in
  spendable_outputs st' = cb <$> seq 1 7 /\
  fundings st' = funding_of fw <$> [cb 10%nat; cb 9%nat; cb 8%nat].
Proof.
intros Hrun. pose proof (run_test_spec fw node L Hcb st) as H.
cbn zeta in H. rewrite Hrun in H. exact H.
Qed.


End MoreTheorems.

Section PreupgradeAndFunding.
Context {NS : Type} (fw : Framework) (node : Node NS).
Implicit Types st : TestState NS.

Lemma mempool_check_inv {A} (k : M NS A) st a st' :
  (pool <- node_getrawmempool node;; assert_equal pool [];; k)%py st
    = (Normal a, st') ->
  getrawmempool node (node_st st) = [] /\
  k (emit (EvGetRawMempool []) st) = (Normal a, st').
Proof.
unfold bind, node_getrawmempool, assert_equal. simpl.
destruct (bool_decide (getrawmempool node (node_st st) = [])) eqn:E;
  simpl; [|discriminate].
apply bool_decide_eq_true in E. rewrite E. done.
Qed.

(** Lines 190-213, when they pass. *)
Lemma preupgrade_tests_Normal_inv tip tx1 tx2 tx3 st tip2 st' :
  preupgrade_tests fw node tip tx1 tx2 tx3 st = (Normal tip2, st') ->
  exists h,
    block_heights st !! sha256 fw tip = Some h /\
    tip2 = assemble_block fw tip (h + 1) [tx1] None /\
    trace st' =
      [EvSendBlocks [tip2] Accepted;
       EvLog "Successfully mine nonstandard transaction";
       EvGetRawMempool [];
       EvSendTxs [tx3] (RejectedNoBan MINIMALPUSH_ERROR);
       EvSendTxs [tx2] (RejectedNoBan MINIMALPUSH_ERROR);
       EvSendTxs [tx1] (RejectedNoBan MINIMALPUSH_ERROR);
       EvLog "Sending rejected transactions via net (no banning)";
       EvSendRawTransaction tx3 (inr (-26, MINIMALPUSH_ERROR));
       EvSendRawTransaction tx2 (inr (-26, MINIMALPUSH_ERROR));
       EvSendRawTransaction tx1 (inr (-26, MINIMALPUSH_ERROR));
       EvLog "Sending rejected transactions via RPC";
       EvLog "Start preupgrade tests"] ++ trace st.
Proof.
unfold preupgrade_tests, check_for_no_ban_on_rejected_tx. intros H.
apply bind_Normal_inv in H as (u1 & s1 & E & H).
rewrite log_info_run in E. injection E as <- <-.
apply bind_Normal_inv in H as (u2 & s2 & E & H).
rewrite log_info_run in E. injection E as <- <-.
apply bind_Normal_inv in H as (u3 & s3 & E & H).
apply assert_raises_Normal_inv in E as (_ & ->).
apply bind_Normal_inv in H as (u4 & s4 & E & H).
apply assert_raises_Normal_inv in E as (_ & ->).
apply bind_Normal_inv in H as (u5 & s5 & E & H).
apply assert_raises_Normal_inv in E as (_ & ->).
apply bind_Normal_inv in H as (u6 & s6 & E & H).
rewrite log_info_run in E. injection E as <- <-.
apply bind_Normal_inv in H as (u7 & s7 & E & H).
apply send_txs_Normal_inv in E as (v7 & _ & Hv7 & ->).
apply verdict_agrees_no_ban in Hv7 as ->.
apply bind_Normal_inv in H as (u8 & s8 & E & H).
apply send_txs_Normal_inv in E as (v8 & _ & Hv8 & ->).
apply verdict_agrees_no_ban in Hv8 as ->.
apply bind_Normal_inv in H as (u9 & s9 & E & H).
apply send_txs_Normal_inv in E as (v9 & _ & Hv9 & ->).
apply verdict_agrees_no_ban in Hv9 as ->.
apply mempool_check_inv in H as (_ & H).
apply bind_Normal_inv in H as (u10 & s10 & E & H).
rewrite log_info_run in E. injection E as <- <-.
apply bind_Normal_inv in H as (B & s11 & E & H).
apply build_block_Normal_inv in E as (h & Hh & -> & ->).
apply bind_Normal_inv in H as (u12 & s12 & E & H).
apply send_blocks_Normal_inv in E as (v & _ & Hv & ->).
apply verdict_agrees_success in Hv as ->.
injection H as <- <-.
exists h. split; [exact Hh|]. split; reflexivity.
Qed.

(** X9. In a run that reaches the [return], the pre-upgrade phase went as
    follows: the node refused each of the three fixtures on the direct
    channel with code -26 and the minimal-push reason, refused each of them
    on the peer channel for the same reason without a ban, reported an empty
    mempool, and then accepted a block that embeds the first fixture. *)
Theorem preupgrade_phase_answers (L : FrameworkLaws fw) st st' :
  run_test fw node st = (Returned, st') ->
  exists tx1 tx2 tx3 B newer older,
    trace st' =
      newer ++
      [EvSendBlocks [B] Accepted;
       EvLog "Successfully mine nonstandard transaction";
       EvGetRawMempool [];
       EvSendTxs [tx3] (RejectedNoBan MINIMALPUSH_ERROR);
       EvSendTxs [tx2] (RejectedNoBan MINIMALPUSH_ERROR);
       EvSendTxs [tx1] (RejectedNoBan MINIMALPUSH_ERROR);
       EvLog "Sending rejected transactions via net (no banning)";
       EvSendRawTransaction tx3 (inr (-26, MINIMALPUSH_ERROR));
       EvSendRawTransaction tx2 (inr (-26, MINIMALPUSH_ERROR));
       EvSendRawTransaction tx1 (inr (-26, MINIMALPUSH_ERROR));
       EvLog "Sending rejected transactions via RPC";
       EvLog "Start preupgrade tests"] ++ older /\
    length newer = 10%nat /\
    is_fixture fw tx1 /\ is_fixture fw tx2 /\ is_fixture fw tx3 /\
    (tx1 ∈ vtx B).
Proof.
intros H.
apply run_test_Returned_inv in H
  as (tip0 & st1 & tip1 & tx1 & tx2 & tx3 & st2 & tip2 & st3 & pre & st4 & up & st5
      & E1 & E2 & E3 & E4 & E5 & E6).
apply fund_fixtures_Normal_inv in E2 as (F1 & F2 & F3).
apply preupgrade_tests_Normal_inv in E3 as (h3 & Hh3 & Htip2 & Htr3).
apply approach_Normal_inv in E4 as (bs & Htr4 & _).
apply activation_block_Normal_inv in E5 as (h & _ & _ & Htr5 & _).
apply too_late_Normal_inv in E6 as (h' & _ & Htr6 & _).
eexists tx1, tx2, tx3, tip2, [_; _; _; _; _; _; _; _; _; _], (trace st2). split.
{ rewrite Htr6, Htr5, Htr4, Htr3. reflexivity. }
split; [reflexivity|]. split; [exact F1|]. split; [exact F2|]. split; [exact F3|].
rewrite Htip2. apply assemble_block_embeds; [exact L|]. set_solver.
Qed.

(** X10. On a registered tip and a pool whose last three sources have an
    output, lines 151-188 either fail by assertion (the node did not accept
    the funding block) or return three fixtures and a new tip such that: the
    new tip is built on the old one and holds the three funding
    transactions beside its coinbase; each fixture spends output 0 of its
    own funding transaction, which is in that block; the three sources are
    gone from the pool, the last one used first. *)
Theorem fund_fixtures_links_fixtures_to_fundings (L : FrameworkLaws fw) st
    (tip : CBlock) (h : Z) (rest : list CTransaction) (x3 x2 x1 : CTransaction) :
  block_heights st !! sha256 fw tip = Some h ->
  spendable_outputs st = rest ++ [x3; x2; x1] ->
  has_output x1 -> has_output x2 -> has_output x3 ->
  (fund_fixtures fw node tip st).1 = Raised AssertionError \/
  exists tip1 tx1 tx2 tx3 st',
    fund_fixtures fw node tip st = (Normal (tip1, (tx1, tx2, tx3)), st') /\
    hashPrevBlock tip1 = sha256 fw tip /\
    block_heights st' !! sha256 fw tip1 = Some (h + 1) /\
    fundings st' = [funding_of fw x1; funding_of fw x2; funding_of fw x3] /\
    vtx tip1 ≡ₚ coinbase_at fw (h + 1) :: fundings st' /\
    vin tx1 = [mkTxIn (mkOutPoint (tx_sha256 fw (funding_of fw x1)) 0) [1; 1; OP_1]] /\
    vin tx2 = [mkTxIn (mkOutPoint (tx_sha256 fw (funding_of fw x2)) 0) [1; 1; OP_1]] /\
    vin tx3 = [mkTxIn (mkOutPoint (tx_sha256 fw (funding_of fw x3)) 0) [1; 1; OP_1]] /\
    spendable_outputs st' = rest.
Proof.
intros Hh Hpool H1 H2 H3.
pose proof (fund_fixtures_spec fw node tip st h rest x3 x2 x1 Hh Hpool H1 H2 H3) as H.
destruct (fund_fixtures fw node tip st) as [[[tip1 [[tx1 tx2] tx3]]| |e] st'];
  simpl in H; [|done|left; by subst].
right. destruct H as (Hr & Hreg & Hs & Hf). injection Hr as -> -> -> ->.
eexists _, _, _, _, st'. split; [reflexivity|].
split; [reflexivity|]. split; [exact Hreg|]. split; [exact Hf|].
split; [rewrite Hf, assemble_block_vtx; apply (ctor_perm fw L)|].
split; [apply (spend_tx_vin fw L)|]. split; [apply (spend_tx_vin fw L)|].
split; [apply (spend_tx_vin fw L)|]. exact Hs.
Qed.

End PreupgradeAndFunding.

(** ** The further properties at the reference node *)

Lemma reference_coinbase_has_output : coinbase_has_output Reference.fw.
Proof. intros h script. discriminate. Qed.

(** A state in which only the genesis block is registered. *)
Definition genesis_registered {NS} (pool : list CTransaction) (ns : NS)
    : TestState NS :=
  mkState {[Reference.hash_block Reference.genesis := 0]} pool [] ns [].

Lemma default_chain_is_linked_witness :
  exists r st',
    for_each (fun acc (_ : Z) => extend_chain Reference.fw None acc)
      (py_range 0 (Z.of_nat 10)) (Reference.genesis, [])
      (genesis_registered [] tt) = (Normal r, st') /\
    length r.2 = 10%nat /\
    r.1 = List.last r.2 Reference.genesis /\
    hashPrevBlock <$> r.2 =
      take 10 (sha256 Reference.fw <$> (Reference.genesis :: r.2)) /\
    nTime <$> r.2 =
      (fun i => nTime Reference.genesis + Z.of_nat i) <$> seq 1 10 /\
    vtx <$> r.2 =
      (fun i => [coinbase_at Reference.fw (0 + Z.of_nat i)]) <$> seq 1 10 /\
    block_heights st' !! sha256 Reference.fw r.1 = Some (0 + Z.of_nat 10) /\
    node_st st' = node_st (genesis_registered [] tt) /\
    trace st' = trace (genesis_registered [] tt).
Proof.
apply (default_chain_is_linked Reference.fw reference_fw_laws
         (genesis_registered [] tt) Reference.genesis 0 10).
reflexivity.
Defined.

Lemma built_block_holds_coinbase_and_transactions_witness :
  exists B st',
    build_block Reference.fw Reference.genesis Reference.pool3 None
      (genesis_registered [] tt) = (Normal B, st') /\
    vtx B ≡ₚ coinbase_at Reference.fw (0 + 1) :: Reference.pool3 /\
    hashMerkleRoot B = calc_merkle_root Reference.fw (vtx B) /\
    nTime B = default (nTime Reference.genesis + 1) None /\
    spendable_outputs st' = spendable_outputs (genesis_registered [] tt) /\
    fundings st' = fundings (genesis_registered [] tt).
Proof.
apply (built_block_holds_coinbase_and_transactions Reference.fw reference_fw_laws
         (genesis_registered [] tt) Reference.genesis Reference.pool3 None 0).
reflexivity.
Defined.

Lemma run_test_fails_only_by_assertion_witness :
  (run_test Reference.fw (Reference.node true) (initial_state Reference.fresh)).1
    = Returned \/
  (run_test Reference.fw (Reference.node true) (initial_state Reference.fresh)).1
    = Raised AssertionError.
Proof.
apply (run_test_fails_only_by_assertion Reference.fw (Reference.node true)
         reference_fw_laws reference_coinbase_has_output).
Defined.

Lemma run_test_uses_three_of_ten_sources_witness :
  let cb := fun i : nat =>
    coinbase_at Reference.fw
      (getblockcount (Reference.node false)
         (node_at_start (Reference.node false)
            (node_st (initial_state Reference.fresh))) + Z.of_nat i) in
  spendable_outputs (Reference.run false).2 = cb <$> seq 1 7 /\
  fundings (Reference.run false).2 =
    funding_of Reference.fw <$> [cb 10%nat; cb 9%nat; cb 8%nat].
Proof.
apply (run_test_uses_three_of_ten_sources Reference.fw (Reference.node false)
         reference_fw_laws reference_coinbase_has_output
         (initial_state Reference.fresh)).
apply reference_run_eq.
Defined.


Lemma preupgrade_phase_answers_witness :
  exists tx1 tx2 tx3 B newer older,
    trace (Reference.run false).2 =
      newer ++
      [EvSendBlocks [B] Accepted;
       EvLog "Successfully mine nonstandard transaction";
       EvGetRawMempool [];
       EvSendTxs [tx3] (RejectedNoBan MINIMALPUSH_ERROR);
       EvSendTxs [tx2] (RejectedNoBan MINIMALPUSH_ERROR);
       EvSendTxs [tx1] (RejectedNoBan MINIMALPUSH_ERROR);
       EvLog "Sending rejected transactions via net (no banning)";
       EvSendRawTransaction tx3 (inr (-26, MINIMALPUSH_ERROR));
       EvSendRawTransaction tx2 (inr (-26, MINIMALPUSH_ERROR));
       EvSendRawTransaction tx1 (inr (-26, MINIMALPUSH_ERROR));
       EvLog "Sending rejected transactions via RPC";
       EvLog "Start preupgrade tests"] ++ older /\
    length newer = 10%nat /\
    is_fixture Reference.fw tx1 /\ is_fixture Reference.fw tx2 /\
    is_fixture Reference.fw tx3 /\
    (tx1 ∈ vtx B).
Proof.
apply (preupgrade_phase_answers Reference.fw (Reference.node false)
         reference_fw_laws (initial_state Reference.fresh)).
apply reference_run_eq.
Defined.

Lemma fund_fixtures_links_fixtures_to_fundings_witness :
  let st := genesis_registered Reference.pool3 Reference.fresh in
  let x1 := Reference.coinbase 3 [OP_1] in
  let x2 := Reference.coinbase 2 [OP_1] in
  let x3 := Reference.coinbase 1 [OP_1] in
  (fund_fixtures Reference.fw (Reference.node false) Reference.genesis st).1
    = Raised AssertionError \/
  exists tip1 tx1 tx2 tx3 st',
    fund_fixtures Reference.fw (Reference.node false) Reference.genesis st
      = (Normal (tip1, (tx1, tx2, tx3)), st') /\
    hashPrevBlock tip1 = sha256 Reference.fw Reference.genesis /\
    block_heights st' !! sha256 Reference.fw tip1 = Some (0 + 1) /\
    fundings st' =
      [funding_of Reference.fw x1; funding_of Reference.fw x2;
       funding_of Reference.fw x3] /\
    vtx tip1 ≡ₚ coinbase_at Reference.fw (0 + 1) :: fundings st' /\
    vin tx1 =
      [mkTxIn (mkOutPoint (tx_sha256 Reference.fw (funding_of Reference.fw x1)) 0)
         [1; 1; OP_1]] /\
    vin tx2 =
      [mkTxIn (mkOutPoint (tx_sha256 Reference.fw (funding_of Reference.fw x2)) 0)
         [1; 1; OP_1]] /\
    vin tx3 =
      [mkTxIn (mkOutPoint (tx_sha256 Reference.fw (funding_of Reference.fw x3)) 0)
         [1; 1; OP_1]] /\
    spendable_outputs st' = [].
Proof.
apply (fund_fixtures_links_fixtures_to_fundings Reference.fw (Reference.node false)
         reference_fw_laws (genesis_registered Reference.pool3 Reference.fresh)
         Reference.genesis 0 []
         (Reference.coinbase 1 [OP_1]) (Reference.coinbase 2 [OP_1])
         (Reference.coinbase 3 [OP_1]));
  first [ reflexivity | discriminate ].
Defined.

(** ** One chain of blocks *)

Section OneChain.
Context {NS : Type} (fw : Framework) (node : Node NS).
Implicit Types st : TestState NS.

Lemma create_fund_and_spend_tx_trace st tx st' :
  create_fund_and_spend_tx fw st = (Normal tx, st') -> trace st' = trace st.
Proof.
unfold create_fund_and_spend_tx. intros H.
apply bind_Normal_inv in H as (sp & s1 & E1 & H).
apply bind_Normal_inv in H as (o & s2 & E2 & H).
apply bind_Normal_inv in H as (u & s3 & E3 & H).
injection H as _ <-. injection E3 as _ <-.
unfold first_elem in E2. destruct (vout sp); [discriminate|].
injection E2 as _ <-.
unfold spendable_outputs_pop in E1.
destruct (reverse (spendable_outputs st)); [discriminate|].
injection E1 as _ <-. reflexivity.
Qed.

(** Lines 151-188, when they pass: what they add to the trace. *)
Lemma fund_fixtures_Normal_trace tip st r st' :
  fund_fixtures fw node tip st = (Normal r, st') ->
  trace st' =
    EvSendBlocks [r.1] Accepted
    :: EvLog "Setting up spends to test and mining the fundings."
    :: trace st.
Proof.
unfold fund_fixtures. intros H.
apply bind_Normal_inv in H as (u1 & s1 & E & H).
rewrite log_info_run in E. injection E as <- <-.
apply bind_Normal_inv in H as (u2 & s2 & E & H). injection E as <- <-.
apply bind_Normal_inv in H as (a1 & s3 & F1 & H).
apply bind_Normal_inv in H as (a2 & s4 & F2 & H).
apply bind_Normal_inv in H as (a3 & s5 & F3 & H).
apply create_fund_and_spend_tx_trace in F1, F2, F3.
apply bind_Normal_inv in H as (fs & s6 & E & H). injection E as _ <-.
apply bind_Normal_inv in H as (tp & s7 & E & H).
apply build_block_Normal_inv in E as (h & _ & -> & ->).
apply bind_Normal_inv in H as (u3 & s8 & E & H).
apply send_blocks_Normal_inv in E as (v & _ & Hv & ->).
apply verdict_agrees_success in Hv as ->.
injection H as <- <-. cbn. rewrite F3, F2, F1. reflexivity.
Qed.

(** Lines 217-230, when they pass on a registered tip: the blocks they
    submit are the chain built on the tip. *)
Lemma approach_Normal_chain tip st h pre st' :
  block_heights st !! sha256 fw tip = Some h ->
  approach fw node tip st = (Normal pre, st') ->
  let bs := chain_of fw tip h (Some <$> crossing_times) in
  pre = List.last bs tip /\
  trace st' =
    EvMedianTime (NOV2019_START_TIME - 1)
    :: EvSendBlocks bs Accepted
    :: EvSetMockTime NOV2019_START_TIME
    :: EvLog "Approach to just before upgrade activation"
    :: trace st.
Proof.
intros Hh. unfold approach. intros H.
apply bind_Normal_inv in H as (u1 & s1 & E1 & H).
rewrite log_info_run in E1. injection E1 as <- <-.
apply bind_Normal_inv in H as (u2 & s2 & E2 & H).
injection E2 as <- <-.
apply bind_Normal_inv in H as (r & s3 & E3 & H).
change (timed_loop fw (py_range (-1) 5) (tip, []))
  with (chain_loop (NS:=NS) fw (fun i : Z => Some (NOV2019_START_TIME + i))
          (py_range (-1) 5) (tip, [])) in E3.
match type of E3 with
| _ ?s2 = _ =>
    destruct (chain_loop_run fw (fun i : Z => Some (NOV2019_START_TIME + i))
                (py_range (-1) 5) s2 tip [] h Hh)
      as (s3' & Hrun & _ & _ & _ & _ & Hn & Ht)
end.
rewrite Hrun in E3.
injection E3 as <- <-.
apply bind_Normal_inv in H as (u3 & s4 & E4 & H).
apply send_blocks_Normal_inv in E4 as (v & _ & Hv & ->).
apply verdict_agrees_success in Hv as ->.
apply mediantime_check_inv in H as (_ & H).
injection H as <- <-. cbn. rewrite Ht. split; reflexivity.
Qed.

Lemma since_cons_ne (mark e : Event) (l : list Event) :
  e <> mark -> since mark (e :: l) = e :: since mark l.
Proof. intros He. cbn [since]. by rewrite decide_False. Qed.

Lemma since_mark (mark : Event) (l : list Event) : since mark (mark :: l) = [].
Proof. cbn [since]. by rewrite decide_True. Qed.

Lemma coinbase_in_block (L : FrameworkLaws fw) parent k k' txs nt :
  k = k' -> coinbase_at fw k' ∈ vtx (assemble_block fw parent k txs nt).
Proof.
intros ->. rewrite assemble_block_vtx, (ctor_perm fw L). set_solver.
Qed.

(** X12. In a run that reaches the [return], the ten blocks that the
    script submits after the setup (the funding block, the block with the
    first fixture, the six timestamped blocks, the activation block and the
    block that is rejected) form one chain on the best block fetched at the
    end of the setup: each names the one before it as its parent, their
    coinbases are made for ten consecutive heights, and their timestamps are
    the tip's plus one and plus two, the six of the crossing, and the
    activation time plus five and plus six. *)
Theorem submitted_blocks_form_one_chain (L : FrameworkLaws fw)
    (Hcb : coinbase_has_output fw) st st' :
  run_test fw node st = (Returned, st') ->
  exists (tip0 : CBlock) (st1 : TestState NS) (h : Z),
    let sent :=
      blocks_sent
        (since (EvLog "Setting up spends to test and mining the fundings.")
               (trace st')) in
    setup fw node st = (Normal tip0, st1) /\
    block_heights st1 !! sha256 fw tip0 = Some h /\
    length sent = 10%nat /\
    hashPrevBlock <$> sent = take 10 (sha256 fw <$> (tip0 :: sent)) /\
    Forall2 (fun b i => coinbase_at fw (h + Z.of_nat i) ∈ vtx b) sent (seq 1 10) /\
    nTime <$> sent =
      [nTime tip0 + 1; nTime tip0 + 2] ++ crossing_times ++
      [NOV2019_START_TIME + 5; NOV2019_START_TIME + 6].
Proof.
intros H.
apply run_test_Returned_inv in H
  as (tip0 & st1 & tip1 & tx1 & tx2 & tx3 & st2 & tip2 & st3 & pre & st4 & up & st5
      & E1 & E2 & E3 & E4 & E5 & E6).
pose proof (setup_spec fw node L st) as S1. rewrite E1 in S1.
destruct S1 as [[h Hh] Hpool].
change ((fun i => _) <$> seq 1 10)
  with (((fun i => coinbase_at fw
            (getblockcount node (node_at_start node (node_st st)) + Z.of_nat i))
           <$> seq 1 7) ++
        [coinbase_at fw (getblockcount node (node_at_start node (node_st st)) + 8);
         coinbase_at fw (getblockcount node (node_at_start node (node_st st)) + 9);
         coinbase_at fw (getblockcount node (node_at_start node (node_st st)) + 10)])
  in Hpool.
pose proof (fund_fixtures_spec fw node tip0 st1 h _ _ _ _ Hh Hpool
              (Hcb _ _) (Hcb _ _) (Hcb _ _)) as S2.
pose proof (fund_fixtures_Normal_trace _ _ _ _ E2) as T2.
rewrite E2 in S2. destruct S2 as (Hr2 & Hh2 & Hs2 & Hf2).
injection Hr2 as Htip1 _ _ _. cbn [fst snd] in *.
pose proof (preupgrade_tests_spec fw node tip1 tx1 tx2 tx3 st2 _ _ _ Hh2 Hs2 Hf2) as S3.
rewrite E3 in S3. destruct S3 as (Htip2 & Hh3 & Hs3 & Hf3).
apply preupgrade_tests_Normal_inv in E3 as (h3 & _ & _ & T3).
pose proof (approach_spec fw node tip2 st3 _ _ _ Hh3 Hs3 Hf3) as S4.
rewrite E4 in S4. destruct S4 as (Hh4 & Hs4 & Hf4).
apply (approach_Normal_chain _ _ _ _ _ Hh3) in E4 as (Hpre & T4).
pose proof (activation_block_spec fw node pre tx2 st4 _ _ _ Hh4 Hs4 Hf4) as S5.
rewrite E5 in S5. destruct S5 as (Hh5 & _).
apply activation_block_Normal_inv in E5 as (h5 & Hh5' & Hup & T5 & _).
rewrite Hh4 in Hh5'. injection Hh5' as <-.
apply too_late_Normal_inv in E6 as (h6 & Hh6 & T6 & _).
rewrite Hh5 in Hh6. injection Hh6 as <-.
exists tip0, st1, h. cbn zeta.
split; [exact E1|]. split; [exact Hh|].
rewrite T6, T5, T4, T3, T2.
cbn [app].
repeat (rewrite since_cons_ne by discriminate). rewrite since_mark.
subst pre up tip2 tip1.
assert (Hct : crossing_times =
  [NOV2019_START_TIME - 1; NOV2019_START_TIME; NOV2019_START_TIME + 1;
   NOV2019_START_TIME + 2; NOV2019_START_TIME + 3; NOV2019_START_TIME + 4])
  by reflexivity.
rewrite Hct. clear Hct T2 T3 T4 T5 T6.
unfold blocks_sent.
cbn [reverse rev_append fmap list_fmap batch_of List.concat app chain_of
     List.last take length seq].
split; [reflexivity|]. split; [reflexivity|]. split.
- repeat (apply Forall2_cons; split; [apply coinbase_in_block; [exact L | lia]|]).
  apply Forall2_nil; auto.
- rewrite !assemble_block_nTime. repeat (f_equal; try lia).
Qed.

End OneChain.

Lemma submitted_blocks_form_one_chain_witness :
  exists (tip0 : CBlock) (st1 : TestState Reference.NodeState) (h : Z),
    let sent :=
      blocks_sent
        (since (EvLog "Setting up spends to test and mining the fundings.")
               (trace (Reference.run false).2)) in
    setup Reference.fw (Reference.node false) (initial_state Reference.fresh)
      = (Normal tip0, st1) /\
    block_heights st1 !! sha256 Reference.fw tip0 = Some h /\
    length sent = 10%nat /\
    hashPrevBlock <$> sent = take 10 (sha256 Reference.fw <$> (tip0 :: sent)) /\
    Forall2 (fun b i => coinbase_at Reference.fw (h + Z.of_nat i) ∈ vtx b)
      sent (seq 1 10) /\
    nTime <$> sent =
      [nTime tip0 + 1; nTime tip0 + 2] ++ crossing_times ++
      [NOV2019_START_TIME + 5; NOV2019_START_TIME + 6].
Proof.
apply (submitted_blocks_form_one_chain Reference.fw (Reference.node false)
         reference_fw_laws reference_coinbase_has_output
         (initial_state Reference.fresh)).
apply reference_run_eq.
Defined.

Section RegistryErrors.
Context {NS : Type} (fw : Framework).
Implicit Types st : TestState NS.

(** X13. [build_block] needs the height of the parent: it raises
    [KeyError] exactly when the parent is not in the registry, and then it
    leaves the state as it was; on the empty registry of [set_test_params]
    it raises for every parent.  When it succeeds, the only entry of the
    registry that it writes is the one of the new block. *)
Theorem build_block_needs_registered_parent st (parent : CBlock)
    (txs : list CTransaction) (nt : option Z) :
  ((build_block fw parent txs nt st).1 = Raised KeyError <->
     block_heights st !! sha256 fw parent = None) /\
  ((build_block fw parent txs nt st).1 = Raised KeyError ->
     (build_block fw parent txs nt st).2 = st) /\
  (forall ns : NS,
     build_block fw parent txs nt (initial_state ns)
       = (Raised KeyError, initial_state ns)) /\
  (forall B st',
     build_block fw parent txs nt st = (Normal B, st') ->
     forall k, k <> sha256 fw B ->
       block_heights st' !! k = block_heights st !! k).
Proof.
split; [|split; [|split]].
- destruct (block_heights st !! sha256 fw parent) as [h|] eqn:Hh.
  + rewrite (build_block_registered fw st parent txs nt h Hh). cbn. split; discriminate.
  + rewrite (build_block_unregistered fw st parent txs nt Hh). done.
- destruct (block_heights st !! sha256 fw parent) as [h|] eqn:Hh.
  + rewrite (build_block_registered fw st parent txs nt h Hh). cbn. discriminate.
  + rewrite (build_block_unregistered fw st parent txs nt Hh). done.
- intros ns. apply build_block_unregistered. apply lookup_empty.
- intros B st' H k Hk.
  apply build_block_Normal_inv in H as (h & _ & _ & ->).
  cbn. by rewrite lookup_insert_ne.
Qed.

End RegistryErrors.
